(** * Agent-testing harness of CS46X-Job-Application-Tool

    Shallow embedding of
    - [form_template.py]: the template data model, [FormTemplate.to_dict]
      and [FormTemplate.from_dict];
    - [form_server.py]: [FormServer._validate_page], [register_template]
      and the [start_application] / [show_page] / [submit_page] route
      handlers;
    - [interaction_tracker.py]: [InteractionTracker] and its metrics;
    - [test_runner.py]: [TestRunner.register_template], [run_test] and
      [run_test_suite], the browser agent being a parameter. *)

From Stdlib Require Import ZArith QArith String Ascii Bool.
From stdpp Require Import base list gmap strings.

Open Scope string_scope.
Set Warnings "-register-all".

(* ------------------------------------------------------------------ *)
(** ** JSON documents and Python errors *)

(** A value produced by [to_dict] / read by [from_dict] ([json.dump]
    representable data). A Python dict is an association list with
    unique keys, in insertion order. *)
Inductive json : Type :=
| JNull
| JBool (b : bool)
| JNum (z : Z)
| JStr (s : string)
| JArr (l : list json)
| JObj (kvs : list (string * json)).

(** The exceptions [from_dict] can raise. Python does not enforce the
    dataclass annotations; the model reads each value at its annotated
    type and reports any other value as [TypeError]. [ValueError value
    enum_name] is the exception of a failed [Enum] lookup,
    [ValueError("%r is not a valid %s" % (value, enum_name))]: the model
    keeps the arguments the message is rendered from, not the [repr]. *)
Inductive py_error : Type :=
| KeyError (key : string)
| ValueError (value enum_name : string)
| TypeError (msg : string).

Inductive result (A : Type) : Type :=
| Ok (a : A)
| Err (e : py_error).
Arguments Ok {A} a.
Arguments Err {A} e.

Definition rbind {A B} (m : result A) (k : A -> result B) : result B :=
  match m with Ok a => k a | Err e => Err e end.

Notation "'let!' x := m 'in' k" := (rbind m (fun x => k))
  (at level 200, x name, m at level 100, k at level 200).

(** [[f(x) for x in xs]], stopping at the first exception. *)
Fixpoint rmap {A B} (f : A -> result B) (xs : list A) : result (list B) :=
  match xs with
  | [] => Ok []
  | x :: xs' => let! y := f x in let! ys := rmap f xs' in Ok (y :: ys)
  end.

(** [d.get(k)] on a dict. *)
Fixpoint obj_get (kvs : list (string * json)) (k : string) : option json :=
  match kvs with
  | [] => None
  | (k', v) :: kvs' => if String.eqb k k' then Some v else obj_get kvs' k
  end.

(** [d[k]]: raises [KeyError(k)] on a missing key. *)
Definition getitem (kvs : list (string * json)) (k : string) : result json :=
  match obj_get kvs k with Some v => Ok v | None => Err (KeyError k) end.

(** [d.get(k, default)]. *)
Definition get_default (kvs : list (string * json)) (k : string) (dflt : json)
  : json :=
  match obj_get kvs k with Some v => v | None => dflt end.

Definition as_str (v : json) : result string :=
  match v with JStr s => Ok s | _ => Err (TypeError "str expected") end.
Definition as_opt_str (v : json) : result (option string) :=
  match v with
  | JNull => Ok None
  | JStr s => Ok (Some s)
  | _ => Err (TypeError "Optional[str] expected")
  end.
Definition as_bool (v : json) : result bool :=
  match v with JBool b => Ok b | _ => Err (TypeError "bool expected") end.
Definition as_list (v : json) : result (list json) :=
  match v with JArr l => Ok l | _ => Err (TypeError "list expected") end.
Definition as_obj (v : json) : result (list (string * json)) :=
  match v with JObj kvs => Ok kvs | _ => Err (TypeError "dict expected") end.

Definition of_opt_str (o : option string) : json :=
  match o with Some s => JStr s | None => JNull end.

(* ------------------------------------------------------------------ *)
(** ** form_template.py: the data model *)

Inductive FieldType : Type :=
| TEXT | EMAIL | TEL | NUMBER | DATE | SELECT | CHECKBOX | RADIO
| TEXTAREA | FILE | HIDDEN.

(** [FieldType.value]. *)
Definition FieldType_value (t : FieldType) : string :=
  match t with
  | TEXT => "text" | EMAIL => "email" | TEL => "tel" | NUMBER => "number"
  | DATE => "date" | SELECT => "select" | CHECKBOX => "checkbox"
  | RADIO => "radio" | TEXTAREA => "textarea" | FILE => "file"
  | HIDDEN => "hidden"
  end.

(** [FieldType(s)]: the enum lookup by value. *)
Definition FieldType_of (s : string) : result FieldType :=
  if String.eqb s "text" then Ok TEXT
  else if String.eqb s "email" then Ok EMAIL
  else if String.eqb s "tel" then Ok TEL
  else if String.eqb s "number" then Ok NUMBER
  else if String.eqb s "date" then Ok DATE
  else if String.eqb s "select" then Ok SELECT
  else if String.eqb s "checkbox" then Ok CHECKBOX
  else if String.eqb s "radio" then Ok RADIO
  else if String.eqb s "textarea" then Ok TEXTAREA
  else if String.eqb s "file" then Ok FILE
  else if String.eqb s "hidden" then Ok HIDDEN
  else Err (ValueError s "FieldType").

Record FieldOption : Type := {
  fo_value : string;
  fo_label : string;
  fo_is_default : bool
}.

Record FormField : Type := {
  ff_id : string;
  ff_name : string;
  ff_label : string;
  ff_field_type : FieldType;
  ff_required : bool;
  ff_placeholder : option string;
  ff_validation_pattern : option string;
  ff_validation_message : option string;
  ff_options : list FieldOption;
  ff_expected_value_type : option string;
  ff_css_selector : option string;
  ff_css_class : option string;
  ff_help_text : option string
}.

Record FormPage : Type := {
  fp_page_id : string;
  fp_title : string;
  fp_description : option string;
  fp_fields : list FormField;
  fp_submit_button_text : string;
  fp_submit_button_selector : option string;
  fp_back_button_text : option string;
  fp_back_button_selector : option string;
  fp_validation_required : bool;
  fp_css_theme : option string
}.

Record FormTemplate : Type := {
  ft_template_id : string;
  ft_name : string;
  ft_description : string;
  ft_pages : list FormPage;
  ft_start_url : string;
  ft_success_url : string;
  ft_failure_url : string;
  ft_metadata : list (string * json)
}.

(** *** [FormTemplate.to_dict] *)

Definition option_to_dict (opt : FieldOption) : json :=
  JObj [("value", JStr (fo_value opt)); ("label", JStr (fo_label opt));
        ("is_default", JBool (fo_is_default opt))].

Definition field_to_dict (f : FormField) : json :=
  JObj [("id", JStr (ff_id f));
        ("name", JStr (ff_name f));
        ("label", JStr (ff_label f));
        ("field_type", JStr (FieldType_value (ff_field_type f)));
        ("required", JBool (ff_required f));
        ("placeholder", of_opt_str (ff_placeholder f));
        ("validation_pattern", of_opt_str (ff_validation_pattern f));
        ("validation_message", of_opt_str (ff_validation_message f));
        ("options", JArr (map option_to_dict (ff_options f)));
        ("expected_value_type", of_opt_str (ff_expected_value_type f));
        ("css_selector", of_opt_str (ff_css_selector f));
        ("css_class", of_opt_str (ff_css_class f));
        ("help_text", of_opt_str (ff_help_text f))].

Definition page_to_dict (p : FormPage) : json :=
  JObj [("page_id", JStr (fp_page_id p));
        ("title", JStr (fp_title p));
        ("description", of_opt_str (fp_description p));
        ("fields", JArr (map field_to_dict (fp_fields p)));
        ("submit_button_text", JStr (fp_submit_button_text p));
        ("submit_button_selector", of_opt_str (fp_submit_button_selector p));
        ("back_button_text", of_opt_str (fp_back_button_text p));
        ("back_button_selector", of_opt_str (fp_back_button_selector p));
        ("validation_required", JBool (fp_validation_required p));
        ("css_theme", of_opt_str (fp_css_theme p))].

Definition to_dict (t : FormTemplate) : list (string * json) :=
  [("template_id", JStr (ft_template_id t));
   ("name", JStr (ft_name t));
   ("description", JStr (ft_description t));
   ("pages", JArr (map page_to_dict (ft_pages t)));
   ("start_url", JStr (ft_start_url t));
   ("success_url", JStr (ft_success_url t));
   ("failure_url", JStr (ft_failure_url t));
   ("metadata", JObj (ft_metadata t))].

(** *** [FormTemplate.from_dict] *)

(** [FieldOption(value=opt["value"], label=opt["label"],
    is_default=opt.get("is_default", False))]. *)
Definition option_from_dict (j : json) : result FieldOption :=
  let! opt := as_obj j in
  let! v := getitem opt "value" in let! v := as_str v in
  let! l := getitem opt "label" in let! l := as_str l in
  let! d := as_bool (get_default opt "is_default" (JBool false)) in
  Ok {| fo_value := v; fo_label := l; fo_is_default := d |}.

Definition field_from_dict (j : json) : result FormField :=
  let! field_data := as_obj j in
  let! opts := as_list (get_default field_data "options" (JArr [])) in
  let! options := rmap option_from_dict opts in
  let! fid := getitem field_data "id" in let! fid := as_str fid in
  let! fname := getitem field_data "name" in let! fname := as_str fname in
  let! flabel := getitem field_data "label" in let! flabel := as_str flabel in
  let! ftype := getitem field_data "field_type" in
  let! ftype := as_str ftype in let! ftype := FieldType_of ftype in
  let! req := as_bool (get_default field_data "required" (JBool false)) in
  let! ph := as_opt_str (get_default field_data "placeholder" JNull) in
  let! vp := as_opt_str (get_default field_data "validation_pattern" JNull) in
  let! vm := as_opt_str (get_default field_data "validation_message" JNull) in
  let! evt := as_opt_str (get_default field_data "expected_value_type" JNull) in
  let! sel := as_opt_str (get_default field_data "css_selector" JNull) in
  let! cls := as_opt_str (get_default field_data "css_class" JNull) in
  let! ht := as_opt_str (get_default field_data "help_text" JNull) in
  Ok {| ff_id := fid; ff_name := fname; ff_label := flabel;
        ff_field_type := ftype; ff_required := req; ff_placeholder := ph;
        ff_validation_pattern := vp; ff_validation_message := vm;
        ff_options := options; ff_expected_value_type := evt;
        ff_css_selector := sel; ff_css_class := cls; ff_help_text := ht |}.

Definition page_from_dict (j : json) : result FormPage :=
  let! page_data := as_obj j in
  let! fs := as_list (get_default page_data "fields" (JArr [])) in
  let! fields := rmap field_from_dict fs in
  let! pid := getitem page_data "page_id" in let! pid := as_str pid in
  let! title := getitem page_data "title" in let! title := as_str title in
  let! descr := as_opt_str (get_default page_data "description" JNull) in
  let! sbt := as_str (get_default page_data "submit_button_text"
                        (JStr "Continue")) in
  let! sbs := as_opt_str (get_default page_data "submit_button_selector" JNull) in
  let! bbt := as_opt_str (get_default page_data "back_button_text" JNull) in
  let! bbs := as_opt_str (get_default page_data "back_button_selector" JNull) in
  let! vr := as_bool (get_default page_data "validation_required"
                        (JBool true)) in
  let! theme := as_opt_str (get_default page_data "css_theme" JNull) in
  Ok {| fp_page_id := pid; fp_title := title; fp_description := descr;
        fp_fields := fields; fp_submit_button_text := sbt;
        fp_submit_button_selector := sbs; fp_back_button_text := bbt;
        fp_back_button_selector := bbs; fp_validation_required := vr;
        fp_css_theme := theme |}.

Definition from_dict (data : list (string * json)) : result FormTemplate :=
  let! ps := as_list (get_default data "pages" (JArr [])) in
  let! pages := rmap page_from_dict ps in
  let! tid := getitem data "template_id" in let! tid := as_str tid in
  let! nm := getitem data "name" in let! nm := as_str nm in
  let! descr := getitem data "description" in let! descr := as_str descr in
  let! su := as_str (get_default data "start_url" (JStr "/")) in
  let! ok := as_str (get_default data "success_url" (JStr "/success")) in
  let! ko := as_str (get_default data "failure_url" (JStr "/error")) in
  let! md := as_obj (get_default data "metadata" (JObj [])) in
  Ok {| ft_template_id := tid; ft_name := nm; ft_description := descr;
        ft_pages := pages; ft_start_url := su; ft_success_url := ok;
        ft_failure_url := ko; ft_metadata := md |}.

(* ------------------------------------------------------------------ *)
(** ** form_server.py *)

(** A Python [str] is held as its UTF-8 encoding. [str.strip()] removes
    the characters of [str.isspace]: the ASCII ones \t \n \x0b \x0c \r,
    \x1c-\x1f and the space, ... *)
Definition is_ascii_space (b : nat) : bool :=
  ((9 <=? b) && (b <=? 13) || (28 <=? b) && (b <=? 32))%nat.

(** ... U+0085 and U+00A0 (C2 85, C2 A0) ... *)
Definition is_space2 (b0 b1 : nat) : bool :=
  ((b0 =? 194) && ((b1 =? 133) || (b1 =? 160)))%nat.

(** ... and U+1680 (E1 9A 80), U+2000-U+200A (E2 80 80-8A), U+2028,
    U+2029, U+202F (E2 80 A8, A9, AF), U+205F (E2 81 9F) and U+3000
    (E3 80 80). *)
Definition is_space3 (b0 b1 b2 : nat) : bool :=
  ((b0 =? 225) && (b1 =? 154) && (b2 =? 128)
   || (b0 =? 226) && (b1 =? 128) &&
      ((128 <=? b2) && (b2 <=? 138) || (b2 =? 168) || (b2 =? 169) || (b2 =? 175))
   || (b0 =? 226) && (b1 =? 129) && (b2 =? 159)
   || (b0 =? 227) && (b1 =? 128) && (b2 =? 128))%nat.

(** [not value.strip()]: every character of [value] is whitespace. *)
Fixpoint is_blank (v : string) : bool :=
  match v with
  | EmptyString => true
  | String a v1 =>
      if is_ascii_space (nat_of_ascii a) then is_blank v1 else
      match v1 with
      | String a1 v2 =>
          if is_space2 (nat_of_ascii a) (nat_of_ascii a1) then is_blank v2 else
          match v2 with
          | String a2 v3 =>
              is_space3 (nat_of_ascii a) (nat_of_ascii a1) (nat_of_ascii a2)
              && is_blank v3
          | EmptyString => false
          end
      | EmptyString => false
      end
  end.

Definition FieldType_eqb (a b : FieldType) : bool :=
  String.eqb (FieldType_value a) (FieldType_value b).

(** The [form_data] and [files] arguments of [_validate_page]:
    [form_data.get(name)] gives the text value posted under [name],
    [files.get(name)] the file name of the file uploaded under [name] (an
    [UploadFile] is always truthy). *)
Record Submission : Type := {
  form_data : gmap string string;
  files : gmap string string
}.

(** Python truthiness of an [Optional[str]]. *)
Definition truthy (o : option string) : bool :=
  match o with Some s => negb (String.eqb s "") | None => false end.

Definition required_message (f : FormField) : string :=
  ff_label f ++ " is required".

(** [field.validation_message or f"{field.label} format is invalid"]. *)
Definition format_message (f : FormField) : string :=
  if truthy (ff_validation_message f) then
    match ff_validation_message f with Some m => m | None => "" end
  else ff_label f ++ " format is invalid".

Section Validation.

(** [re.match(pattern, value) is not None]: Python's regular
    expression engine is a parameter of the validation. *)
Variable re_match : string -> string -> bool.

(** One iteration of the loop of [_validate_page]. *)
Definition validate_field (sub : Submission) (errors : gmap string string)
    (f : FormField) : gmap string string :=
  let errors :=
    if ff_required f then
      if FieldType_eqb (ff_field_type f) FILE then
        match files sub !! ff_name f with
        | Some _ => errors
        | None => <[ff_name f := required_message f]> errors
        end
      else
        match form_data sub !! ff_name f with
        | Some value =>
            if String.eqb value "" || is_blank value
            then <[ff_name f := required_message f]> errors
            else errors
        | None => <[ff_name f := required_message f]> errors
        end
    else errors in
  if truthy (ff_validation_pattern f) then
    let pattern := match ff_validation_pattern f with
                   | Some p => p | None => "" end in
    match form_data sub !! ff_name f with
    | Some value =>
        if String.eqb value "" then errors
        else if re_match pattern value then errors
        else <[ff_name f := format_message f]> errors
    | None => errors
    end
  else errors.

(** [FormServer._validate_page]. *)
Definition _validate_page (page : FormPage) (sub : Submission)
  : gmap string string :=
  fold_left (validate_field sub) (fp_fields page) ∅.

End Validation.

(** A value of a session's page data, as the store block of [submit_page]
    would write it: the posted text, or
    [{"filename": file.filename, "size": 0}] for an uploaded file. *)
Inductive StoredValue : Type :=
| SVText (v : string)
| SVFile (filename : string).

Record FormServer : Type := {
  templates : gmap string FormTemplate;
  session_data : gmap string (gmap string (gmap string StoredValue))
}.

(** [self._generate_page_html(template, page, session, errors)]: the
    markup is a function of these arguments, which the model keeps. *)
Record PageHtml : Type := {
  html_template : FormTemplate;
  html_page : FormPage;
  html_session : option string;
  html_errors : gmap string string
}.

Inductive Response : Type :=
| HTTPException (status_code : Z) (detail : string)
| HTMLResponse (content : PageHtml)
| RedirectResponse (url : string) (status_code : Z).

(** [next((p for p in template.pages if p.page_id == page_id), None)]. *)
Definition find_page (pages : list FormPage) (page_id : string)
  : option FormPage :=
  find (fun p => String.eqb (fp_page_id p) page_id) pages.

(** The [show_page] route ([GET /apply/{template_id}/page/{page_id}]). *)
Definition show_page (srv : FormServer) (template_id page_id : string)
    (session : option string) : Response :=
  match templates srv !! template_id with
  | None => HTTPException 404 "Template not found"
  | Some template =>
      match find_page (ft_pages template) page_id with
      | None => HTTPException 404 "Page not found"
      | Some page =>
          HTMLResponse {| html_template := template; html_page := page;
                          html_session := session; html_errors := ∅ |}
      end
  end.

(** What [form_data = await request.form()] gives the [submit_page]
    handler: the parsed form, or the error response the request ends with
    when Starlette cannot parse it (a 400 for a malformed body, a 500 when
    python-multipart is missing). *)
Inductive FormParse : Type :=
| FormParsed (form_data : gmap string string)
| FormRejected (status_code : Z) (detail : string).

(** The [submit_page] route ([POST /apply/{template_id}/page/{page_id}]).
    After the two 404 checks the handler awaits [request.form()], then
    [request.files()]; Starlette's [Request] has no [files] method, so that
    call raises [AttributeError], which the server answers with a 500. The
    rest of the handler (storing the page data, [_validate_page], the
    redirect) is never reached. *)
Definition submit_page (srv : FormServer) (template_id page_id : string)
    (session : option string) (form : FormParse) : FormServer * Response :=
  match templates srv !! template_id with
  | None => (srv, HTTPException 404 "Template not found")
  | Some template =>
      match find_page (ft_pages template) page_id with
      | None => (srv, HTTPException 404 "Page not found")
      | Some _ =>
          match form with
          | FormRejected status_code detail =>
              (srv, HTTPException status_code detail)
          | FormParsed _ => (srv, HTTPException 500 "AttributeError")
          end
      end
  end.

(** [FormServer.register_template]. *)
Definition register_template (srv : FormServer) (t : FormTemplate) : FormServer :=
  {| templates := <[ft_template_id t := t]> (templates srv);
     session_data := session_data srv |}.

(** [re.match(pattern, value)] for a pattern without metacharacters: such
    a pattern matches exactly the strings it is a prefix of. *)
Definition literal_re_match (pattern value : string) : bool :=
  String.prefix pattern value.

(* ------------------------------------------------------------------ *)
(** ** interaction_tracker.py *)

Open Scope Z_scope.

(** Time is an explicit input: [datetime.now()] is the [now] argument of
    each operation, in milliseconds. *)

Inductive InteractionType : Type :=
| PAGE_LOAD | FIELD_FILL | FIELD_FILL_ATTEMPT | BUTTON_CLICK
| BUTTON_CLICK_ATTEMPT | DROPDOWN_SELECT | CHECKBOX_TOGGLE | RADIO_SELECT
| FILE_UPLOAD | NAVIGATION | VALIDATION_ERROR | PAGE_TIMEOUT
| ELEMENT_NOT_FOUND.

#[global] Instance InteractionType_eq_dec : EqDecision InteractionType.
Proof. solve_decision. Defined.

Record Interaction : Type := {
  i_timestamp : Z;
  i_interaction_type : InteractionType;
  i_element_id : option string;
  i_element_selector : option string;
  i_element_label : option string;
  i_action : option string;
  i_value : option json;
  i_success : bool;
  i_error_message : option string;
  i_page_url : option string;
  i_page_title : option string;
  i_duration_ms : option Z;
  i_metadata : list (string * json)
}.

Record FieldInteraction : Type := {
  fi_field_id : string;
  fi_field_name : string;
  fi_field_label : string;
  fi_field_type : string;
  fi_required : bool;
  fi_attempts : list Interaction;
  fi_final_value : option json;
  fi_was_filled : bool;
  fi_was_filled_correctly : bool;
  fi_validation_errors : list string
}.

(** [PageMetrics]; the optional timings are never assigned by the
    tracker and are kept as [None]. *)
Record PageMetrics : Type := {
  pm_page_id : string;
  pm_page_url : string;
  pm_page_title : string;
  pm_time_on_page_ms : option Z;
  pm_fields_total : Z;
  pm_fields_filled : Z;
  pm_fields_filled_correctly : Z;
  pm_buttons_clicked : Z;
  pm_buttons_click_attempts : Z;
  pm_validation_errors : Z;
  pm_interactions : list Interaction;
  pm_field_interactions : gmap string FieldInteraction
}.

Definition new_PageMetrics (page_id page_url page_title : string) : PageMetrics :=
  {| pm_page_id := page_id; pm_page_url := page_url;
     pm_page_title := page_title; pm_time_on_page_ms := None;
     pm_fields_total := 0; pm_fields_filled := 0;
     pm_fields_filled_correctly := 0; pm_buttons_clicked := 0;
     pm_buttons_click_attempts := 0; pm_validation_errors := 0;
     pm_interactions := []; pm_field_interactions := ∅ |}.

(** [TestSessionMetrics], restricted to the attributes the tracker reads
    or writes ([total_pages], [total_fields], [navigation_errors],
    [pages_completed] and [metadata] are never touched). *)
Record TestSessionMetrics : Type := {
  m_session_id : string;
  m_template_id : string;
  m_start_time : Z;
  m_end_time : option Z;
  m_pages_visited : list string;
  m_pages_metrics : gmap string PageMetrics;
  m_total_interactions : Z;
  m_successful_interactions : Z;
  m_failed_interactions : Z;
  m_fields_filled : Z;
  m_fields_filled_correctly : Z;
  m_fields_missed : list string;
  m_fields_incorrect : list string;
  m_buttons_clicked : Z;
  m_buttons_failed : Z;
  m_validation_errors : Z;
  m_total_duration_ms : option Z;
  m_success : bool;
  m_completion_percentage : Q
}.

Record InteractionTracker : Type := {
  tr_session_id : string;
  tr_template_id : string;
  tr_start_time : Z;
  tr_interactions : list Interaction;
  tr_current_page_id : option string;
  tr_current_page_url : option string;
  tr_metrics : TestSessionMetrics
}.

(** [InteractionTracker.__init__]. *)
Definition new_tracker (session_id template_id : string) (now : Z)
  : InteractionTracker :=
  {| tr_session_id := session_id; tr_template_id := template_id;
     tr_start_time := now; tr_interactions := [];
     tr_current_page_id := None; tr_current_page_url := None;
     tr_metrics :=
       {| m_session_id := session_id; m_template_id := template_id;
          m_start_time := now; m_end_time := None; m_pages_visited := [];
          m_pages_metrics := ∅; m_total_interactions := 0;
          m_successful_interactions := 0; m_failed_interactions := 0;
          m_fields_filled := 0; m_fields_filled_correctly := 0;
          m_fields_missed := []; m_fields_incorrect := [];
          m_buttons_clicked := 0; m_buttons_failed := 0;
          m_validation_errors := 0; m_total_duration_ms := None;
          m_success := false; m_completion_percentage := 0 |} |}.

(** Attribute updates of a [TestSessionMetrics]. *)
Definition m_with_counts (m : TestSessionMetrics) (total ok ko : Z)
    (pms : gmap string PageMetrics) : TestSessionMetrics :=
  {| m_session_id := m_session_id m; m_template_id := m_template_id m;
     m_start_time := m_start_time m; m_end_time := m_end_time m;
     m_pages_visited := m_pages_visited m; m_pages_metrics := pms;
     m_total_interactions := total; m_successful_interactions := ok;
     m_failed_interactions := ko; m_fields_filled := m_fields_filled m;
     m_fields_filled_correctly := m_fields_filled_correctly m;
     m_fields_missed := m_fields_missed m;
     m_fields_incorrect := m_fields_incorrect m;
     m_buttons_clicked := m_buttons_clicked m;
     m_buttons_failed := m_buttons_failed m;
     m_validation_errors := m_validation_errors m;
     m_total_duration_ms := m_total_duration_ms m; m_success := m_success m;
     m_completion_percentage := m_completion_percentage m |}.

Definition m_with_pages (m : TestSessionMetrics) (visited : list string)
    (pms : gmap string PageMetrics) : TestSessionMetrics :=
  {| m_session_id := m_session_id m; m_template_id := m_template_id m;
     m_start_time := m_start_time m; m_end_time := m_end_time m;
     m_pages_visited := visited; m_pages_metrics := pms;
     m_total_interactions := m_total_interactions m;
     m_successful_interactions := m_successful_interactions m;
     m_failed_interactions := m_failed_interactions m;
     m_fields_filled := m_fields_filled m;
     m_fields_filled_correctly := m_fields_filled_correctly m;
     m_fields_missed := m_fields_missed m;
     m_fields_incorrect := m_fields_incorrect m;
     m_buttons_clicked := m_buttons_clicked m;
     m_buttons_failed := m_buttons_failed m;
     m_validation_errors := m_validation_errors m;
     m_total_duration_ms := m_total_duration_ms m; m_success := m_success m;
     m_completion_percentage := m_completion_percentage m |}.

Definition m_with_buttons (m : TestSessionMetrics) (clicked failed : Z)
  : TestSessionMetrics :=
  {| m_session_id := m_session_id m; m_template_id := m_template_id m;
     m_start_time := m_start_time m; m_end_time := m_end_time m;
     m_pages_visited := m_pages_visited m;
     m_pages_metrics := m_pages_metrics m;
     m_total_interactions := m_total_interactions m;
     m_successful_interactions := m_successful_interactions m;
     m_failed_interactions := m_failed_interactions m;
     m_fields_filled := m_fields_filled m;
     m_fields_filled_correctly := m_fields_filled_correctly m;
     m_fields_missed := m_fields_missed m;
     m_fields_incorrect := m_fields_incorrect m;
     m_buttons_clicked := clicked; m_buttons_failed := failed;
     m_validation_errors := m_validation_errors m;
     m_total_duration_ms := m_total_duration_ms m; m_success := m_success m;
     m_completion_percentage := m_completion_percentage m |}.

Definition m_with_end (m : TestSessionMetrics) (end_time : Z)
    (duration : Z) (success : bool) (completion : Q) : TestSessionMetrics :=
  {| m_session_id := m_session_id m; m_template_id := m_template_id m;
     m_start_time := m_start_time m; m_end_time := Some end_time;
     m_pages_visited := m_pages_visited m;
     m_pages_metrics := m_pages_metrics m;
     m_total_interactions := m_total_interactions m;
     m_successful_interactions := m_successful_interactions m;
     m_failed_interactions := m_failed_interactions m;
     m_fields_filled := m_fields_filled m;
     m_fields_filled_correctly := m_fields_filled_correctly m;
     m_fields_missed := m_fields_missed m;
     m_fields_incorrect := m_fields_incorrect m;
     m_buttons_clicked := m_buttons_clicked m;
     m_buttons_failed := m_buttons_failed m;
     m_validation_errors := m_validation_errors m;
     m_total_duration_ms := Some duration; m_success := success;
     m_completion_percentage := completion |}.

Definition tr_with (tr : InteractionTracker) (interactions : list Interaction)
    (page_id page_url : option string) (m : TestSessionMetrics)
  : InteractionTracker :=
  {| tr_session_id := tr_session_id tr; tr_template_id := tr_template_id tr;
     tr_start_time := tr_start_time tr; tr_interactions := interactions;
     tr_current_page_id := page_id; tr_current_page_url := page_url;
     tr_metrics := m |}.

(** [a or b] on [Optional[str]]. *)
Definition str_or (a b : option string) : option string :=
  if truthy a then a else b.

(** The [Interaction(...)] built by [track_interaction]. *)
Definition make_interaction (tr : InteractionTracker) (now : Z)
    (interaction_type : InteractionType)
    (element_id element_selector element_label action : option string)
    (value : option json) (success : bool)
    (error_message page_url page_title : option string)
    (duration_ms : option Z) (metadata : list (string * json))
  : Interaction :=
  {| i_timestamp := now; i_interaction_type := interaction_type;
     i_element_id := element_id; i_element_selector := element_selector;
     i_element_label := element_label; i_action := action; i_value := value;
     i_success := success; i_error_message := error_message;
     i_page_url := str_or page_url (tr_current_page_url tr);
     i_page_title := page_title; i_duration_ms := duration_ms;
     i_metadata := metadata |}.

(** The page-level part of [track_interaction]: the interaction is
    appended and the counter selected by the [if]/[elif] chain is bumped. *)
Definition pm_track (pm : PageMetrics) (i : Interaction) : PageMetrics :=
  let t := i_interaction_type i in
  let s := i_success i in
  let ff := if bool_decide (t = FIELD_FILL) && s then 1 else 0 in
  let bc := if negb (bool_decide (t = FIELD_FILL) && s) &&
               (bool_decide (t = BUTTON_CLICK) && s) then 1 else 0 in
  let ba := if negb (bool_decide (t = FIELD_FILL) && s) &&
               negb (bool_decide (t = BUTTON_CLICK) && s) &&
               bool_decide (t = BUTTON_CLICK_ATTEMPT) then 1 else 0 in
  let ve := if negb (bool_decide (t = FIELD_FILL) && s) &&
               negb (bool_decide (t = BUTTON_CLICK) && s) &&
               negb (bool_decide (t = BUTTON_CLICK_ATTEMPT)) &&
               bool_decide (t = VALIDATION_ERROR) then 1 else 0 in
  {| pm_page_id := pm_page_id pm; pm_page_url := pm_page_url pm;
     pm_page_title := pm_page_title pm;
     pm_time_on_page_ms := pm_time_on_page_ms pm;
     pm_fields_total := pm_fields_total pm;
     pm_fields_filled := pm_fields_filled pm + ff;
     pm_fields_filled_correctly := pm_fields_filled_correctly pm;
     pm_buttons_clicked := pm_buttons_clicked pm + bc;
     pm_buttons_click_attempts := pm_buttons_click_attempts pm + ba;
     pm_validation_errors := pm_validation_errors pm + ve;
     pm_interactions := (pm_interactions pm ++ [i])%list;
     pm_field_interactions := pm_field_interactions pm |}.

(** [InteractionTracker.track_interaction] once the interaction is built. *)
Definition record_interaction (i : Interaction) (tr : InteractionTracker)
  : InteractionTracker :=
  let m := tr_metrics tr in
  let total := m_total_interactions m + 1 in
  let ok := if i_success i then m_successful_interactions m + 1
            else m_successful_interactions m in
  let ko := if i_success i then m_failed_interactions m
            else m_failed_interactions m + 1 in
  let pms :=
    match tr_current_page_id tr with
    | Some pid =>
        if String.eqb pid "" then m_pages_metrics m
        else
          let pm := match m_pages_metrics m !! pid with
                    | Some pm => pm
                    | None => new_PageMetrics pid
                                (match tr_current_page_url tr with
                                 | Some u => u | None => "" end) ""
                    end in
          <[pid := pm_track pm i]> (m_pages_metrics m)
    | None => m_pages_metrics m
    end in
  tr_with tr ((tr_interactions tr ++ [i])%list) (tr_current_page_id tr)
    (tr_current_page_url tr) (m_with_counts m total ok ko pms).

(** [InteractionTracker.track_interaction]. *)
Definition track_interaction (now : Z) (interaction_type : InteractionType)
    (element_id element_selector element_label action : option string)
    (value : option json) (success : bool)
    (error_message page_url page_title : option string)
    (duration_ms : option Z) (metadata : option (list (string * json)))
    (tr : InteractionTracker) : InteractionTracker :=
  let md := match metadata with Some md => md | None => [] end in
  record_interaction
    (make_interaction tr now interaction_type element_id element_selector
       element_label action value success error_message page_url page_title
       duration_ms md) tr.

(** [InteractionTracker.set_current_page]. *)
Definition set_current_page (now : Z) (page_id page_url page_title : string)
    (tr : InteractionTracker) : InteractionTracker :=
  let m := tr_metrics tr in
  let pms := match m_pages_metrics m !! page_id with
             | Some _ => m_pages_metrics m
             | None => <[page_id := new_PageMetrics page_id page_url page_title]>
                         (m_pages_metrics m)
             end in
  let visited := if bool_decide (page_id ∈ m_pages_visited m)
                 then m_pages_visited m
                 else (m_pages_visited m ++ [page_id])%list in
  let tr' := tr_with tr (tr_interactions tr) (Some page_id) (Some page_url)
               (m_with_pages m visited pms) in
  track_interaction now PAGE_LOAD None None None None None true None
    (Some page_url) (Some page_title) None None tr'.

(** The field-specific tracking of [track_field_fill]. *)
Definition fi_track (fi : FieldInteraction) (i : Interaction) (value : option json)
    (success : bool) (error_message : option string) : FieldInteraction :=
  {| fi_field_id := fi_field_id fi; fi_field_name := fi_field_name fi;
     fi_field_label := fi_field_label fi; fi_field_type := fi_field_type fi;
     fi_required := fi_required fi;
     fi_attempts := (fi_attempts fi ++ [i])%list;
     fi_final_value := if success then value else fi_final_value fi;
     fi_was_filled := if success then true else fi_was_filled fi;
     fi_was_filled_correctly := fi_was_filled_correctly fi;
     fi_validation_errors :=
       if success then fi_validation_errors fi
       else match error_message with
            | Some e => if String.eqb e "" then fi_validation_errors fi
                        else (fi_validation_errors fi ++ [e])%list
            | None => fi_validation_errors fi
            end |}.

Definition pm_with_fields (pm : PageMetrics) (fis : gmap string FieldInteraction)
  : PageMetrics :=
  {| pm_page_id := pm_page_id pm; pm_page_url := pm_page_url pm;
     pm_page_title := pm_page_title pm;
     pm_time_on_page_ms := pm_time_on_page_ms pm;
     pm_fields_total := pm_fields_total pm;
     pm_fields_filled := pm_fields_filled pm;
     pm_fields_filled_correctly := pm_fields_filled_correctly pm;
     pm_buttons_clicked := pm_buttons_clicked pm;
     pm_buttons_click_attempts := pm_buttons_click_attempts pm;
     pm_validation_errors := pm_validation_errors pm;
     pm_interactions := pm_interactions pm;
     pm_field_interactions := fis |}.

(** [InteractionTracker.track_field_fill]. *)
Definition track_field_fill (now : Z)
    (field_id field_name field_label field_type : string) (value : option json)
    (success : bool) (error_message : option string) (duration_ms : option Z)
    (tr : InteractionTracker) : InteractionTracker :=
  let i := make_interaction tr now
             (if success then FIELD_FILL else FIELD_FILL_ATTEMPT)
             (Some field_id) (Some ("#" ++ field_id)) (Some field_label)
             (Some "fill") value success error_message None None duration_ms
             [("field_name", JStr field_name); ("field_type", JStr field_type)] in
  let tr' := record_interaction i tr in
  match tr_current_page_id tr' with
  | Some pid =>
      if String.eqb pid "" then tr'
      else
        let m := tr_metrics tr' in
        match m_pages_metrics m !! pid with
        | Some pm =>
            let fi := match pm_field_interactions pm !! field_id with
                      | Some fi => fi
                      | None => {| fi_field_id := field_id;
                                   fi_field_name := field_name;
                                   fi_field_label := field_label;
                                   fi_field_type := field_type;
                                   fi_required := false; fi_attempts := [];
                                   fi_final_value := None;
                                   fi_was_filled := false;
                                   fi_was_filled_correctly := false;
                                   fi_validation_errors := [] |}
                      end in
            let pm' := pm_with_fields pm
                         (<[field_id := fi_track fi i value success error_message]>
                            (pm_field_interactions pm)) in
            tr_with tr' (tr_interactions tr') (tr_current_page_id tr')
              (tr_current_page_url tr')
              (m_with_pages m (m_pages_visited m) (<[pid := pm']> (m_pages_metrics m)))
        | None => tr'
        end
  | None => tr'
  end.

(** [InteractionTracker.track_button_click]. *)
Definition track_button_click (now : Z) (button_id : option string)
    (button_selector button_text : string) (success : bool)
    (error_message : option string) (duration_ms : option Z)
    (tr : InteractionTracker) : InteractionTracker :=
  let tr' := track_interaction now
               (if success then BUTTON_CLICK else BUTTON_CLICK_ATTEMPT)
               button_id (Some button_selector) (Some button_text)
               (Some "click") None success error_message None None
               duration_ms None tr in
  let m := tr_metrics tr' in
  let m' := if success
            then m_with_buttons m (m_buttons_clicked m + 1) (m_buttons_failed m)
            else m_with_buttons m (m_buttons_clicked m) (m_buttons_failed m + 1) in
  tr_with tr' (tr_interactions tr') (tr_current_page_id tr')
    (tr_current_page_url tr') m'.

(** [sum(len([f for f in page.fields if f.required]) for page in pages)]. *)
Definition required_field_count (pages : list FormPage) : Z :=
  fold_right (fun page acc =>
                Z.of_nat (length (filter ff_required (fp_fields page))) + acc)
             0 pages.

(** [InteractionTracker.finalize_session]: the sum runs over the literal
    empty list of the source ([for page in []]). *)
Definition finalize_session (now : Z) (success : bool) (tr : InteractionTracker)
  : InteractionTracker :=
  let m := tr_metrics tr in
  let total_required_fields := required_field_count [] in
  let completion :=
    if (0 <? total_required_fields)%Z
    then ((inject_Z (m_fields_filled_correctly m) / inject_Z total_required_fields)
           * 100)%Q
    else m_completion_percentage m in
  tr_with tr (tr_interactions tr) (tr_current_page_id tr)
    (tr_current_page_url tr)
    (m_with_end m now (now - m_start_time m) success completion).

(** The ["metrics"] member of the document written by [export_to_json]. *)
Definition export_metrics (tr : InteractionTracker) : list (string * json) :=
  let m := tr_metrics tr in
  [("total_interactions", JNum (m_total_interactions m));
   ("successful_interactions", JNum (m_successful_interactions m));
   ("failed_interactions", JNum (m_failed_interactions m));
   ("fields_filled", JNum (m_fields_filled m));
   ("fields_filled_correctly", JNum (m_fields_filled_correctly m));
   ("fields_missed", JArr (map JStr (m_fields_missed m)));
   ("fields_incorrect", JArr (map JStr (m_fields_incorrect m)));
   ("buttons_clicked", JNum (m_buttons_clicked m));
   ("buttons_failed", JNum (m_buttons_failed m));
   ("validation_errors", JNum (m_validation_errors m))].

(** A call on the tracker's public interface. *)
Inductive TrackerOp : Type :=
| OpTrackInteraction (now : Z) (interaction_type : InteractionType)
    (element_id element_selector element_label action : option string)
    (value : option json) (success : bool)
    (error_message page_url page_title : option string)
    (duration_ms : option Z) (metadata : option (list (string * json)))
| OpSetCurrentPage (now : Z) (page_id page_url page_title : string)
| OpTrackFieldFill (now : Z) (field_id field_name field_label field_type : string)
    (value : option json) (success : bool) (error_message : option string)
    (duration_ms : option Z)
| OpTrackButtonClick (now : Z) (button_id : option string)
    (button_selector button_text : string) (success : bool)
    (error_message : option string) (duration_ms : option Z)
| OpFinalizeSession (now : Z) (success : bool).

Definition step (op : TrackerOp) (tr : InteractionTracker) : InteractionTracker :=
  match op with
  | OpTrackInteraction now t eid sel lbl act v s err url ttl d md =>
      track_interaction now t eid sel lbl act v s err url ttl d md tr
  | OpSetCurrentPage now pid url ttl => set_current_page now pid url ttl tr
  | OpTrackFieldFill now fid fname flabel ftype v s err d =>
      track_field_fill now fid fname flabel ftype v s err d tr
  | OpTrackButtonClick now bid sel txt s err d =>
      track_button_click now bid sel txt s err d tr
  | OpFinalizeSession now s => finalize_session now s tr
  end.

Definition run_ops (ops : list TrackerOp) (tr : InteractionTracker)
  : InteractionTracker :=
  fold_left (fun tr op => step op tr) ops tr.

(** The keys [from_dict] reads by subscript. *)
Definition subscripted_keys : list string :=
  ["template_id"; "name"; "description"; "page_id"; "title"; "id"; "label";
   "field_type"; "value"].


(** [del d[k]] on a dict. *)
Definition del_key (k : string) (kvs : list (string * json)) : list (string * json) :=
  List.filter (fun kv => negb (String.eqb kv.1 k)) kvs.

(** [d[k] = g(d[k])] on a dict. *)
Definition obj_alter (k : string) (g : json -> json) (kvs : list (string * json))
  : list (string * json) :=
  map (fun kv => if String.eqb kv.1 k then (kv.1, g kv.2) else kv) kvs.

(** The same edits on a JSON value: [del j[k]] and [j[k] = g(j[k])] on a
    dict, [j[i] = g(j[i])] on a list. *)
Definition json_del (k : string) (j : json) : json :=
  match j with JObj kvs => JObj (del_key k kvs) | _ => j end.
Definition json_alter (k : string) (g : json -> json) (j : json) : json :=
  match j with JObj kvs => JObj (obj_alter k g kvs) | _ => j end.
Definition arr_alter (i : nat) (g : json -> json) (j : json) : json :=
  match j with JArr l => JArr (alter g i l) | _ => j end.

(** The document [data] with [g] applied to page [i], to field [j] of a
    page, to option [l] of a field. *)
Definition page_edit (i : nat) (g : json -> json) (data : list (string * json)) :=
  obj_alter "pages" (arr_alter i g) data.
Definition field_edit (j : nat) (g : json -> json) : json -> json :=
  json_alter "fields" (arr_alter j g).
Definition option_edit (l : nat) (g : json -> json) : json -> json :=
  json_alter "options" (arr_alter l g).

(** The same edits on the model. *)
Definition alter_page (i : nat) (g : FormPage -> FormPage) (T : FormTemplate)
  : FormTemplate :=
  {| ft_template_id := ft_template_id T; ft_name := ft_name T;
     ft_description := ft_description T; ft_pages := alter g i (ft_pages T);
     ft_start_url := ft_start_url T; ft_success_url := ft_success_url T;
     ft_failure_url := ft_failure_url T; ft_metadata := ft_metadata T |}.
Definition alter_field (j : nat) (g : FormField -> FormField) (p : FormPage)
  : FormPage :=
  {| fp_page_id := fp_page_id p; fp_title := fp_title p;
     fp_description := fp_description p; fp_fields := alter g j (fp_fields p);
     fp_submit_button_text := fp_submit_button_text p;
     fp_submit_button_selector := fp_submit_button_selector p;
     fp_back_button_text := fp_back_button_text p;
     fp_back_button_selector := fp_back_button_selector p;
     fp_validation_required := fp_validation_required p;
     fp_css_theme := fp_css_theme p |}.
Definition alter_option (l : nat) (g : FieldOption -> FieldOption) (f : FormField)
  : FormField :=
  {| ff_id := ff_id f; ff_name := ff_name f; ff_label := ff_label f;
     ff_field_type := ff_field_type f; ff_required := ff_required f;
     ff_placeholder := ff_placeholder f;
     ff_validation_pattern := ff_validation_pattern f;
     ff_validation_message := ff_validation_message f;
     ff_options := alter g l (ff_options f);
     ff_expected_value_type := ff_expected_value_type f;
     ff_css_selector := ff_css_selector f; ff_css_class := ff_css_class f;
     ff_help_text := ff_help_text f |}.

(** The keys [from_dict] reads by subscript, at each level. *)
Definition template_keys : list string := ["template_id"; "name"; "description"].
Definition page_keys : list string := ["page_id"; "title"].
Definition field_keys : list string := ["id"; "name"; "label"; "field_type"].
Definition option_keys : list string := ["value"; "label"].

(** The keys it reads with [.get] and a default, at each level. *)
Definition template_optional_keys : list string :=
  ["pages"; "start_url"; "success_url"; "failure_url"; "metadata"].
Definition page_optional_keys : list string :=
  ["description"; "fields"; "submit_button_text"; "submit_button_selector";
   "back_button_text"; "back_button_selector"; "validation_required"; "css_theme"].
Definition field_optional_keys : list string :=
  ["required"; "placeholder"; "validation_pattern"; "validation_message";
   "options"; "expected_value_type"; "css_selector"; "css_class"; "help_text"].
Definition option_optional_keys : list string := ["is_default"].

(** A template with the attribute read under [k] set to the default
    [from_dict] gives it. *)
Definition template_default (k : string) (T : FormTemplate) : FormTemplate :=
  {| ft_template_id := ft_template_id T; ft_name := ft_name T;
     ft_description := ft_description T;
     ft_pages := if String.eqb k "pages" then [] else ft_pages T;
     ft_start_url := if String.eqb k "start_url" then "/" else ft_start_url T;
     ft_success_url :=
       if String.eqb k "success_url" then "/success" else ft_success_url T;
     ft_failure_url :=
       if String.eqb k "failure_url" then "/error" else ft_failure_url T;
     ft_metadata := if String.eqb k "metadata" then [] else ft_metadata T |}.

Definition page_default (k : string) (p : FormPage) : FormPage :=
  {| fp_page_id := fp_page_id p; fp_title := fp_title p;
     fp_description :=
       if String.eqb k "description" then None else fp_description p;
     fp_fields := if String.eqb k "fields" then [] else fp_fields p;
     fp_submit_button_text :=
       if String.eqb k "submit_button_text" then "Continue"
       else fp_submit_button_text p;
     fp_submit_button_selector :=
       if String.eqb k "submit_button_selector" then None
       else fp_submit_button_selector p;
     fp_back_button_text :=
       if String.eqb k "back_button_text" then None else fp_back_button_text p;
     fp_back_button_selector :=
       if String.eqb k "back_button_selector" then None
       else fp_back_button_selector p;
     fp_validation_required :=
       if String.eqb k "validation_required" then true
       else fp_validation_required p;
     fp_css_theme := if String.eqb k "css_theme" then None else fp_css_theme p |}.

Definition field_default (k : string) (f : FormField) : FormField :=
  {| ff_id := ff_id f; ff_name := ff_name f; ff_label := ff_label f;
     ff_field_type := ff_field_type f;
     ff_required := if String.eqb k "required" then false else ff_required f;
     ff_placeholder :=
       if String.eqb k "placeholder" then None else ff_placeholder f;
     ff_validation_pattern :=
       if String.eqb k "validation_pattern" then None else ff_validation_pattern f;
     ff_validation_message :=
       if String.eqb k "validation_message" then None else ff_validation_message f;
     ff_options := if String.eqb k "options" then [] else ff_options f;
     ff_expected_value_type :=
       if String.eqb k "expected_value_type" then None else ff_expected_value_type f;
     ff_css_selector :=
       if String.eqb k "css_selector" then None else ff_css_selector f;
     ff_css_class := if String.eqb k "css_class" then None else ff_css_class f;
     ff_help_text := if String.eqb k "help_text" then None else ff_help_text f |}.

Definition option_default (k : string) (o : FieldOption) : FieldOption :=
  {| fo_value := fo_value o; fo_label := fo_label o;
     fo_is_default := if String.eqb k "is_default" then false else fo_is_default o |}.

(* ---- lemmas ---- *)


(** The entry [validate_field] leaves under the field's own name, given
    the entry [old] found there before. *)
Definition field_error (re_match : string -> string -> bool) (sub : Submission)
    (f : FormField) (old : option string) : option string :=
  let e1 :=
    if ff_required f then
      if FieldType_eqb (ff_field_type f) FILE then
        match files sub !! ff_name f with
        | Some _ => old | None => Some (required_message f)
        end
      else
        match form_data sub !! ff_name f with
        | Some value =>
            if String.eqb value "" || is_blank value
            then Some (required_message f) else old
        | None => Some (required_message f)
        end
    else old in
  if truthy (ff_validation_pattern f) then
    let pattern := match ff_validation_pattern f with
                   | Some p => p | None => "" end in
    match form_data sub !! ff_name f with
    | Some value =>
        if String.eqb value "" then e1
        else if re_match pattern value then e1
        else Some (format_message f)
    | None => e1
    end
  else e1.



(* ------------------------------------------------------------------ *)
(** ** The [start_application] route *)

(** The [start_application] route ([GET /apply/{template_id}]);
    [timestamp] is the text of [datetime.now().timestamp()].
    [template.pages[0]] on a template without pages raises [IndexError]
    once the session entry exists; the framework answers it with 500. *)
Definition start_application (srv : FormServer) (template_id timestamp : string)
  : FormServer * Response :=
  match templates srv !! template_id with
  | None => (srv, HTTPException 404 "Template not found")
  | Some template =>
      let session_id := template_id ++ "_" ++ timestamp in
      let srv' := {| templates := templates srv;
                     session_data := <[session_id := ∅]> (session_data srv) |} in
      match ft_pages template with
      | first_page :: _ =>
          (srv', RedirectResponse ("/apply/" ++ template_id ++ "/page/" ++
                                   fp_page_id first_page ++ "?session=" ++
                                   session_id) 302)
      | [] => (srv', HTTPException 500 "IndexError")
      end
  end.

(* ------------------------------------------------------------------ *)
(** ** test_runner.py *)

(** A Python call that returns a value or raises an exception, given by
    [type(e).__name__] and [str(e)]. *)
Inductive py_outcome (A : Type) : Type :=
| Returned (a : A)
| Raised (exc_type message : string).

Arguments Returned {A} a.
Arguments Raised {A} exc_type message.

Definition pbind {A B} (m : py_outcome A) (k : A -> py_outcome B) : py_outcome B :=
  match m with Returned a => k a | Raised t msg => Raised t msg end.

(** [TestRunner]: the port and [self.server] ([None] until
    [start_server]). *)
Record TestRunner : Type := {
  server_port : Z;
  server : option FormServer
}.

(** What the agent part of the [try] block of [run_test] does: the module
    import, [agent_class(headless=...)] and [agent.run(...)] either return
    the value of [agent.run] or raise an [Exception]. *)
Inductive AgentOutcome : Type :=
| AgentReturns (success : json)
| AgentRaises (exc_type message : string).

(** [self.server.trackers]: [FormServer.__init__] sets [app], [port],
    [templates] and [session_data], and the class defines no [trackers],
    so the attribute lookup raises. *)
Definition server_trackers (srv : FormServer)
  : py_outcome (gmap string InteractionTracker) :=
  Raised "AttributeError" "'FormServer' object has no attribute 'trackers'".

(** [TestRunner.register_template]. *)
Definition runner_register_template (runner : TestRunner) (template : FormTemplate)
  : py_outcome TestRunner :=
  match server runner with
  | None => Raised "RuntimeError" "Server not started. Call start_server() first."
  | Some srv => Returned {| server_port := server_port runner;
                            server := Some (register_template srv template) |}
  end.

(** Python truthiness of a JSON value. *)
Definition json_truthy (v : json) : bool :=
  match v with
  | JNull => false
  | JBool b => b
  | JNum z => negb (Z.eqb z 0)
  | JStr s => negb (String.eqb s "")
  | JArr l => match l with [] => false | _ => true end
  | JObj kvs => match kvs with [] => false | _ => true end
  end.

(** [r.get("metrics", {}).get(key, 0)]. *)
Definition metric (r : list (string * json)) (key : string) : py_outcome json :=
  match get_default r "metrics" (JObj []) with
  | JObj m => Returned (get_default m key (JNum 0))
  | _ => Raised "AttributeError" "object has no attribute 'get'"
  end.

(** A summand of Python's [sum]: an [int] (a [bool] counts as 0 or 1);
    the numbers of a result document are integers here. *)
Definition json_num (v : json) : py_outcome Z :=
  match v with
  | JNum z => Returned z
  | JBool b => Returned (if b then 1 else 0)
  | _ => Raised "TypeError" "unsupported operand type(s) for +"
  end.

(** [sum(r.get("metrics", {}).get(key, 0) for r in results)], left to
    right. *)
Fixpoint sum_metric (key : string) (results : list (list (string * json)))
  : py_outcome Z :=
  match results with
  | [] => Returned 0
  | r :: rs =>
      pbind (metric r key) (fun v =>
      pbind (json_num v) (fun z =>
      pbind (sum_metric key rs) (fun s => Returned (z + s))))
  end.

(** The ["suite_summary"] member returned by [run_test_suite]. *)
Record SuiteSummary : Type := {
  ss_total_tests : Z;
  ss_successful_tests : Z;
  ss_failed_tests : Z;
  ss_success_rate : Q;
  ss_total_interactions : Z;
  ss_average_completion_percentage : Q
}.

(** The aggregation at the end of [run_test_suite]. *)
Definition aggregate (results : list (list (string * json)))
  : py_outcome SuiteSummary :=
  let total_tests := Z.of_nat (length results) in
  let successful_tests :=
    Z.of_nat (length (List.filter (fun r => json_truthy
                                (get_default r "success" (JBool false)))
                             results)) in
  pbind (sum_metric "total_interactions" results) (fun total_interactions =>
  pbind (if 0 <? total_tests
         then pbind (sum_metric "completion_percentage" results) (fun s =>
                Returned (inject_Z s / inject_Z total_tests)%Q)
         else Returned 0%Q) (fun avg_completion =>
  Returned {| ss_total_tests := total_tests;
              ss_successful_tests := successful_tests;
              ss_failed_tests := total_tests - successful_tests;
              ss_success_rate :=
                if 0 <? total_tests
                then (inject_Z successful_tests / inject_Z total_tests * 100)%Q
                else 0%Q;
              ss_total_interactions := total_interactions;
              ss_average_completion_percentage := avg_completion |})).

Section RunTest.

(** The rest of the [try] block of [run_test] (the choice of the session,
    [finalize_session] and the results dict), which runs only after
    [self.server.trackers] has been read; it is left as a parameter. *)
Variable collect_results :
  string -> FormTemplate -> json -> gmap string InteractionTracker ->
  py_outcome (list (string * json)).

(** [agent i] and [timestamp i]: the agent's behaviour and
    [datetime.now().timestamp()] during the [i]-th test of a suite. *)
Variable agent : nat -> AgentOutcome.
Variable timestamp : nat -> string.

(** [TestRunner.run_test]; the [except Exception] handler turns an
    exception of the [try] block into an error result. *)
Definition run_test (runner : TestRunner) (template_id : string)
    (outcome : AgentOutcome) (ts : string) : py_outcome (list (string * json)) :=
  match server runner with
  | None => Raised "RuntimeError" "Server not started. Call start_server() first."
  | Some srv =>
      match templates srv !! template_id with
      | None => Raised "ValueError" ("Template '" ++ template_id ++ "' not found")
      | Some template =>
          let attempt :=
            match outcome with
            | AgentRaises ty msg => Raised ty msg
            | AgentReturns success =>
                pbind (server_trackers srv) (fun trackers =>
                  collect_results template_id template success trackers)
            end in
          match attempt with
          | Returned results => Returned results
          | Raised ty msg =>
              Returned [("test_id", JStr (template_id ++ "_" ++ ts));
                        ("template_id", JStr template_id);
                        ("success", JBool false);
                        ("error", JStr msg);
                        ("error_type", JStr ty)]
          end
      end
  end.

(** The registration loop of [run_test_suite]. *)
Fixpoint register_all (runner : TestRunner) (ts : list FormTemplate)
  : py_outcome TestRunner :=
  match ts with
  | [] => Returned runner
  | t :: ts' => pbind (runner_register_template runner t) (fun r => register_all r ts')
  end.

(** The test loop of [run_test_suite]; [i] numbers the tests. *)
Fixpoint run_all (runner : TestRunner) (ts : list FormTemplate) (i : nat)
  : py_outcome (list (list (string * json))) :=
  match ts with
  | [] => Returned []
  | t :: ts' =>
      pbind (run_test runner (ft_template_id t) (agent i) (timestamp i)) (fun r =>
      pbind (run_all runner ts' (S i)) (fun rs => Returned (r :: rs)))
  end.

(** [TestRunner.run_test_suite]: the runner after registration, the
    ["suite_summary"] and the ["test_results"]. *)
Definition run_test_suite (runner : TestRunner) (ts : list FormTemplate)
  : py_outcome (TestRunner * (SuiteSummary * list (list (string * json)))) :=
  pbind (register_all runner ts) (fun runner' =>
  pbind (run_all runner' ts 0) (fun results =>
  pbind (aggregate results) (fun summary =>
  Returned (runner', (summary, results))))).

End RunTest.

(** Number of interactions of a log that satisfy [p]. *)
Definition count_where (p : Interaction -> bool) (l : list Interaction) : Z :=
  Z.of_nat (length (List.filter p l)).

(** Whether an interaction has the given type. *)
Definition has_type (t : InteractionType) (i : Interaction) : bool :=
  bool_decide (i_interaction_type i = t).

(** The page bookkeeping of the tracker: [pages_visited] has no
    duplicate, the pages with metrics are the visited ones, and the
    current page, once set, has been visited. *)
Definition pages_consistent (tr : InteractionTracker) : Prop :=
  NoDup (m_pages_visited (tr_metrics tr)) /\
  (forall p, is_Some (m_pages_metrics (tr_metrics tr) !! p) <->
             p ∈ m_pages_visited (tr_metrics tr)) /\
  (forall pid, tr_current_page_id tr = Some pid ->
               pid ∈ m_pages_visited (tr_metrics tr)).

(** The counters of a page agree with its interaction list. *)
Definition pm_counts_ok (pm : PageMetrics) : Prop :=
  pm_fields_filled pm
    = count_where (fun i => has_type FIELD_FILL i && i_success i) (pm_interactions pm) /\
  pm_buttons_clicked pm
    = count_where (fun i => has_type BUTTON_CLICK i && i_success i) (pm_interactions pm) /\
  pm_buttons_click_attempts pm
    = count_where (has_type BUTTON_CLICK_ATTEMPT) (pm_interactions pm) /\
  pm_validation_errors pm
    = count_where (has_type VALIDATION_ERROR) (pm_interactions pm).

(* ------------------------------------------------------------------ *)
(** ** Constructors with the dataclass defaults, and sample inputs *)

(** [FormField(id=..., name=..., label=..., field_type=..., required=...,
    validation_pattern=...)], the other attributes at their defaults. *)
Definition mk_field (id name label : string) (t : FieldType) (required : bool)
    (validation_pattern : option string) : FormField :=
  {| ff_id := id; ff_name := name; ff_label := label; ff_field_type := t;
     ff_required := required; ff_placeholder := None;
     ff_validation_pattern := validation_pattern;
     ff_validation_message := None; ff_options := [];
     ff_expected_value_type := None; ff_css_selector := None;
     ff_css_class := None; ff_help_text := None |}.

(** [FormPage(page_id=..., title=..., fields=...)]. *)
Definition mk_page (page_id : string) (fields : list FormField) : FormPage :=
  {| fp_page_id := page_id; fp_title := page_id; fp_description := None;
     fp_fields := fields; fp_submit_button_text := "Continue";
     fp_submit_button_selector := None; fp_back_button_text := None;
     fp_back_button_selector := None; fp_validation_required := true;
     fp_css_theme := None |}.

(** [FormTemplate(template_id=..., name=..., description="", pages=...)]. *)
Definition mk_template (template_id : string) (pages : list FormPage)
  : FormTemplate :=
  {| ft_template_id := template_id; ft_name := template_id;
     ft_description := ""; ft_pages := pages; ft_start_url := "/";
     ft_success_url := "/success"; ft_failure_url := "/error";
     ft_metadata := [] |}.

(** A POST carrying the given text values and no file. *)
Definition post_text (kvs : list (string * string)) : Submission :=
  {| form_data := list_to_map kvs; files := ∅ |}.

(** The two-page template of the end-to-end scenario: page [A] asks for
    a required [name], page [B] for a required [email]. *)
(** A non-breaking space, U+00A0, in UTF-8. *)
Definition nbsp : string := String "194"%char (String "160"%char EmptyString).

Definition two_page_template : FormTemplate :=
  mk_template "T"
    [mk_page "A" [mk_field "name" "name" "Name" TEXT true None];
     mk_page "B" [mk_field "email" "email" "Email" EMAIL true None]].

(** A server with [two_page_template] registered and no session. *)
Definition two_page_server : FormServer :=
  register_template {| templates := ∅; session_data := ∅ |} two_page_template.

(** A one-page template with two required fields. *)
Definition two_required_template : FormTemplate :=
  mk_template "T"
    [mk_page "p1" [mk_field "name" "name" "Name" TEXT true None;
                   mk_field "email" "email" "Email" EMAIL true None]].

(** An agent run on [two_required_template]: page [p1] is loaded, the
    [name] field is filled successfully, the session is finalized. *)
Definition one_of_two_filled_run : list TrackerOp :=
  [OpSetCurrentPage 1 "p1" "/apply/T/page/p1" "";
   OpTrackFieldFill 2 "name" "name" "Name" "text" (Some (JStr "Ann")) true None None;
   OpFinalizeSession 3 true].

(* ------------------------------------------------------------------ *)
(** ** Round trip of the template document *)

Lemma rmap_map_ok {A B} (f : A -> result B) (g : B -> A) (xs : list B) :
  (forall x, f (g x) = Ok x) -> rmap f (map g xs) = Ok xs.
Proof.
  intros Hfg. induction xs as [|x xs IH]; simpl; [reflexivity|].
  rewrite Hfg. simpl. rewrite IH. reflexivity.
Qed.

Lemma FieldType_of_value (t : FieldType) : FieldType_of (FieldType_value t) = Ok t.
Proof. destruct t; reflexivity. Qed.

Lemma as_opt_str_of (o : option string) : as_opt_str (of_opt_str o) = Ok o.
Proof. destruct o; reflexivity. Qed.

Lemma option_roundtrip (o : FieldOption) : option_from_dict (option_to_dict o) = Ok o.
Proof. destruct o; reflexivity. Qed.

Lemma field_roundtrip (f : FormField) : field_from_dict (field_to_dict f) = Ok f.
Proof.
  destruct f. unfold field_from_dict, field_to_dict. cbn -[rmap FieldType_of].
  rewrite (rmap_map_ok _ _ _ option_roundtrip). cbn -[FieldType_of].
  rewrite FieldType_of_value. cbn.
  rewrite !as_opt_str_of. reflexivity.
Qed.

Lemma page_roundtrip (p : FormPage) : page_from_dict (page_to_dict p) = Ok p.
Proof.
  destruct p. unfold page_from_dict, page_to_dict. cbn -[rmap].
  rewrite (rmap_map_ok _ _ _ field_roundtrip). cbn.
  rewrite !as_opt_str_of. reflexivity.
Qed.

(** Claim C2: for every template [T] (every field type drawn from the
    closed [FieldType] enumeration), [FormTemplate.from_dict(T.to_dict())]
    succeeds and gives back [T]. *)
Theorem from_dict_to_dict (T : FormTemplate) : from_dict (to_dict T) = Ok T.
Proof.
  destruct T. unfold from_dict, to_dict. cbn -[rmap].
  rewrite (rmap_map_ok _ _ _ page_roundtrip). reflexivity.
Qed.

(* ------------------------------------------------------------------ *)
(** ** Errors of [from_dict] *)

Lemma rbind_err {A B} (m : result A) (k : A -> result B) (e : py_error) :
  rbind m k = Err e -> m = Err e \/ exists a, m = Ok a /\ k a = Err e.
Proof. destruct m; simpl; eauto. intros H; inversion H; auto. Qed.

Ltac err_cases H :=
  repeat match type of H with
  | rbind _ _ = Err _ =>
      let H' := fresh "H" in
      let a := fresh "a" in
      apply rbind_err in H as [H | (a & H' & H)]
  end.

Lemma getitem_err kvs k e : getitem kvs k = Err e -> e = KeyError k.
Proof. unfold getitem. destruct (obj_get kvs k); congruence. Qed.

Lemma FieldType_of_not_key s k : FieldType_of s <> Err (KeyError k).
Proof.
  unfold FieldType_of.
  repeat match goal with |- context [if ?c then _ else _] => destruct c end;
    discriminate.
Qed.

Lemma rmap_err {A B} (f : A -> result B) xs e :
  rmap f xs = Err e -> exists x, In x xs /\ f x = Err e.
Proof.
  induction xs as [|x xs IH]; simpl; [discriminate|].
  intros H. err_cases H;
    [eauto | destruct (IH H) as (y & Hy & Hfy); eauto | discriminate].
Qed.

Ltac key_err_solve :=
  repeat match goal with
  | H : getitem _ _ = Err _ |- _ => apply getitem_err in H
  | H : as_str ?v = Err (KeyError _) |- _ => destruct v; discriminate H
  | H : as_opt_str ?v = Err (KeyError _) |- _ => destruct v; discriminate H
  | H : as_bool ?v = Err (KeyError _) |- _ => destruct v; discriminate H
  | H : as_list ?v = Err (KeyError _) |- _ => destruct v; discriminate H
  | H : as_obj ?v = Err (KeyError _) |- _ => destruct v; discriminate H
  | H : FieldType_of _ = Err (KeyError _) |- _ =>
      exfalso; exact (FieldType_of_not_key _ _ H)
  | H : Ok _ = Err _ |- _ => discriminate H
  | H : KeyError _ = KeyError _ |- _ => injection H as H; subst
  end;
  try (unfold subscripted_keys; simpl; tauto).

Lemma option_from_dict_key j k :
  option_from_dict j = Err (KeyError k) -> In k subscripted_keys.
Proof.
  unfold option_from_dict. intros H.
  err_cases H; key_err_solve.
Qed.

Lemma field_from_dict_key j k :
  field_from_dict j = Err (KeyError k) -> In k subscripted_keys.
Proof.
  unfold field_from_dict. intros H.
  err_cases H; key_err_solve.
  apply rmap_err in H as (x & _ & Hx). exact (option_from_dict_key _ _ Hx).
Qed.

Lemma page_from_dict_key j k :
  page_from_dict j = Err (KeyError k) -> In k subscripted_keys.
Proof.
  unfold page_from_dict. intros H.
  err_cases H; key_err_solve.
  apply rmap_err in H as (x & _ & Hx). exact (field_from_dict_key _ _ Hx).
Qed.

Lemma from_dict_key data k :
  from_dict data = Err (KeyError k) -> In k subscripted_keys.
Proof.
  unfold from_dict. intros H.
  err_cases H; key_err_solve.
  apply rmap_err in H as (x & _ & Hx). exact (page_from_dict_key _ _ Hx).
Qed.

(** Claim C9 (counterexample): a document whose template level lacks
    ["name"] and a document in which one field lacks ["name"] fail with
    the very same exception, [KeyError('name')]: the error is Python's
    [KeyError], not a schema error, and it carries no location. *)
Lemma from_dict_missing_key_no_location :
  from_dict [("template_id", JStr "t"); ("description", JStr "d")]
    = Err (KeyError "name") /\
  from_dict [("template_id", JStr "t"); ("name", JStr "n");
             ("description", JStr "d");
             ("pages", JArr [JObj [("page_id", JStr "p"); ("title", JStr "P");
               ("fields", JArr [JObj [("id", JStr "f"); ("label", JStr "F");
                                      ("field_type", JStr "text")]])]])]
    = Err (KeyError "name").
Proof. split; reflexivity. Qed.

Lemma alter_cons_0 {A} (g : A -> A) (x : A) (l : list A) :
  alter g 0%nat (x :: l) = g x :: l.
Proof. reflexivity. Qed.

Lemma alter_cons_S {A} (g : A -> A) (i : nat) (x : A) (l : list A) :
  alter g (S i) (x :: l) = x :: alter g i l.
Proof. reflexivity. Qed.

Lemma rmap_alter_ok {A B} (f : A -> result B) (h : B -> A) (g : A -> A)
    (g' : B -> B) (i : nat) (xs : list B) :
  (forall x, f (h x) = Ok x) -> (forall x, f (g (h x)) = Ok (g' x)) ->
  rmap f (alter g i (map h xs)) = Ok (alter g' i xs).
Proof.
  intros Hfh Hg. revert i. induction xs as [|x xs IH]; intros i; [reflexivity|].
  cbn [map]. destruct i as [|i].
  - rewrite !alter_cons_0. cbn [rmap]. rewrite Hg. cbn [rbind].
    rewrite (rmap_map_ok _ _ _ Hfh). reflexivity.
  - rewrite !alter_cons_S. cbn [rmap]. rewrite Hfh. cbn [rbind].
    rewrite IH. reflexivity.
Qed.

Lemma rmap_alter_err {A B} (f : A -> result B) (h : B -> A) (g : A -> A)
    (i : nat) (xs : list B) (x : B) (e : py_error) :
  (forall x, f (h x) = Ok x) -> xs !! i = Some x -> f (g (h x)) = Err e ->
  rmap f (alter g i (map h xs)) = Err e.
Proof.
  intros Hfh. revert i. induction xs as [|y xs IH]; intros i Hi Hg; [discriminate|].
  cbn [map]. destruct i as [|i]; simpl in Hi.
  - injection Hi as ->. rewrite alter_cons_0. cbn [rmap]. rewrite Hg. reflexivity.
  - rewrite alter_cons_S. cbn [rmap]. rewrite Hfh. cbn [rbind].
    rewrite (IH i Hi Hg). reflexivity.
Qed.

Ltac key_cases H := simpl in H; repeat destruct H as [<-|H]; [..|destruct H].

Lemma option_del_ok (k : string) (o : FieldOption) :
  In k option_optional_keys ->
  option_from_dict (json_del k (option_to_dict o)) = Ok (option_default k o).
Proof. intros H. key_cases H. destruct o; reflexivity. Qed.

Lemma option_del_err (k : string) (o : FieldOption) :
  In k option_keys ->
  option_from_dict (json_del k (option_to_dict o)) = Err (KeyError k).
Proof. intros H. key_cases H; destruct o; reflexivity. Qed.

Lemma field_del_ok (k : string) (f : FormField) :
  In k field_optional_keys ->
  field_from_dict (json_del k (field_to_dict f)) = Ok (field_default k f).
Proof.
  intros H. destruct f. key_cases H;
    unfold field_from_dict, field_to_dict; cbn -[rmap FieldType_of];
    rewrite ?(rmap_map_ok _ _ _ option_roundtrip); cbn -[FieldType_of];
    rewrite FieldType_of_value; cbn; rewrite ?as_opt_str_of; reflexivity.
Qed.

Lemma field_del_err (k : string) (f : FormField) :
  In k field_keys ->
  field_from_dict (json_del k (field_to_dict f)) = Err (KeyError k).
Proof.
  intros H. destruct f. key_cases H;
    unfold field_from_dict, field_to_dict; cbn -[rmap FieldType_of];
    rewrite ?(rmap_map_ok _ _ _ option_roundtrip); reflexivity.
Qed.

Lemma field_option_ok (l : nat) (g : json -> json) (g' : FieldOption -> FieldOption)
    (f : FormField) :
  (forall o, option_from_dict (g (option_to_dict o)) = Ok (g' o)) ->
  field_from_dict (option_edit l g (field_to_dict f)) = Ok (alter_option l g' f).
Proof.
  intros Hg.
  unfold field_from_dict, field_to_dict, option_edit; cbn -[rmap FieldType_of alter].
  rewrite (rmap_alter_ok _ _ _ _ _ _ option_roundtrip Hg). cbn -[FieldType_of alter].
  rewrite FieldType_of_value; cbn -[alter]; rewrite ?as_opt_str_of; reflexivity.
Qed.

Lemma field_option_err (l : nat) (g : json -> json) (f : FormField) (o : FieldOption)
    (e : py_error) :
  ff_options f !! l = Some o -> option_from_dict (g (option_to_dict o)) = Err e ->
  field_from_dict (option_edit l g (field_to_dict f)) = Err e.
Proof.
  intros Hl Hg.
  unfold field_from_dict, field_to_dict, option_edit; cbn -[rmap FieldType_of alter].
  rewrite (rmap_alter_err _ _ _ _ _ _ _ option_roundtrip Hl Hg). reflexivity.
Qed.

Lemma page_del_ok (k : string) (p : FormPage) :
  In k page_optional_keys ->
  page_from_dict (json_del k (page_to_dict p)) = Ok (page_default k p).
Proof.
  intros H. destruct p. key_cases H;
    unfold page_from_dict, page_to_dict; cbn -[rmap];
    rewrite ?(rmap_map_ok _ _ _ field_roundtrip); cbn;
    rewrite ?as_opt_str_of; reflexivity.
Qed.

Lemma page_del_err (k : string) (p : FormPage) :
  In k page_keys ->
  page_from_dict (json_del k (page_to_dict p)) = Err (KeyError k).
Proof.
  intros H. destruct p. key_cases H;
    unfold page_from_dict, page_to_dict; cbn -[rmap];
    rewrite ?(rmap_map_ok _ _ _ field_roundtrip); reflexivity.
Qed.

Lemma page_field_ok (j : nat) (g : json -> json) (g' : FormField -> FormField)
    (p : FormPage) :
  (forall f, field_from_dict (g (field_to_dict f)) = Ok (g' f)) ->
  page_from_dict (field_edit j g (page_to_dict p)) = Ok (alter_field j g' p).
Proof.
  intros Hg.
  unfold page_from_dict, page_to_dict, field_edit; cbn -[rmap alter].
  rewrite (rmap_alter_ok _ _ _ _ _ _ field_roundtrip Hg). cbn -[alter].
  rewrite ?as_opt_str_of; reflexivity.
Qed.

Lemma page_field_err (j : nat) (g : json -> json) (p : FormPage) (f : FormField)
    (e : py_error) :
  fp_fields p !! j = Some f -> field_from_dict (g (field_to_dict f)) = Err e ->
  page_from_dict (field_edit j g (page_to_dict p)) = Err e.
Proof.
  intros Hj Hg.
  unfold page_from_dict, page_to_dict, field_edit; cbn -[rmap alter].
  rewrite (rmap_alter_err _ _ _ _ _ _ _ field_roundtrip Hj Hg). reflexivity.
Qed.

Lemma template_del_ok (k : string) (T : FormTemplate) :
  In k template_optional_keys ->
  from_dict (del_key k (to_dict T)) = Ok (template_default k T).
Proof.
  intros H. destruct T. key_cases H;
    unfold from_dict, to_dict; cbn -[rmap];
    rewrite ?(rmap_map_ok _ _ _ page_roundtrip); reflexivity.
Qed.

Lemma template_del_err (k : string) (T : FormTemplate) :
  In k template_keys ->
  from_dict (del_key k (to_dict T)) = Err (KeyError k).
Proof.
  intros H. destruct T. key_cases H;
    unfold from_dict, to_dict; cbn -[rmap];
    rewrite ?(rmap_map_ok _ _ _ page_roundtrip); reflexivity.
Qed.

Lemma template_page_ok (i : nat) (g : json -> json) (g' : FormPage -> FormPage)
    (T : FormTemplate) :
  (forall p, page_from_dict (g (page_to_dict p)) = Ok (g' p)) ->
  from_dict (page_edit i g (to_dict T)) = Ok (alter_page i g' T).
Proof.
  intros Hg.
  unfold from_dict, to_dict, page_edit; cbn -[rmap alter].
  rewrite (rmap_alter_ok _ _ _ _ _ _ page_roundtrip Hg). reflexivity.
Qed.

Lemma template_page_err (i : nat) (g : json -> json) (T : FormTemplate) (p : FormPage)
    (e : py_error) :
  ft_pages T !! i = Some p -> page_from_dict (g (page_to_dict p)) = Err e ->
  from_dict (page_edit i g (to_dict T)) = Err e.
Proof.
  intros Hi Hg.
  unfold from_dict, to_dict, page_edit; cbn -[rmap alter].
  rewrite (rmap_alter_err _ _ _ _ _ _ _ page_roundtrip Hi Hg). reflexivity.
Qed.

(** Claim C9 (amended): every [KeyError] raised by [from_dict] names one of
    the keys it reads by subscript, and it carries only that key.
    Deleting any of those keys from [T.to_dict()] raises [KeyError(key)],
    whether the key sits at the template level (template [template_id],
    [name], [description]), in a page ([page_id], [title]), in a field
    ([id], [name], [label], [field_type]) or in an option ([value],
    [label]). *)
Theorem from_dict_key_errors (T : FormTemplate) (k : string) (i j l : nat)
    (p : FormPage) (f : FormField) :
  (forall data k', from_dict data = Err (KeyError k') -> In k' subscripted_keys) /\
  (In k template_keys -> from_dict (del_key k (to_dict T)) = Err (KeyError k)) /\
  (In k page_keys -> (i < length (ft_pages T))%nat ->
   from_dict (page_edit i (json_del k) (to_dict T)) = Err (KeyError k)) /\
  (In k field_keys -> ft_pages T !! i = Some p -> (j < length (fp_fields p))%nat ->
   from_dict (page_edit i (field_edit j (json_del k)) (to_dict T))
   = Err (KeyError k)) /\
  (In k option_keys -> ft_pages T !! i = Some p -> fp_fields p !! j = Some f ->
   (l < length (ff_options f))%nat ->
   from_dict (page_edit i (field_edit j (option_edit l (json_del k))) (to_dict T))
   = Err (KeyError k)).
Proof.
  split; [exact from_dict_key|split; [|split; [|split]]].
  - apply template_del_err.
  - intros Hk Hi. destruct (lookup_lt_is_Some_2 _ _ Hi) as [p' Hp'].
    apply (template_page_err _ _ _ _ _ Hp'), page_del_err, Hk.
  - intros Hk Hi Hj. destruct (lookup_lt_is_Some_2 _ _ Hj) as [f' Hf'].
    apply (template_page_err _ _ _ _ _ Hi), (page_field_err _ _ _ _ _ Hf').
    apply field_del_err, Hk.
  - intros Hk Hi Hj Hl. destruct (lookup_lt_is_Some_2 _ _ Hl) as [o Ho].
    apply (template_page_err _ _ _ _ _ Hi), (page_field_err _ _ _ _ _ Hj).
    apply (field_option_err _ _ _ _ _ Ho), option_del_err, Hk.
Qed.

Lemma from_dict_key_errors_witness :
  (In "label" field_keys /\
   ft_pages two_page_template !! 1%nat
     = Some (mk_page "B" [mk_field "email" "email" "Email" EMAIL true None]) /\
   (0 < length [mk_field "email" "email" "Email" EMAIL true None])%nat) /\
  from_dict (page_edit 1 (field_edit 0 (json_del "label")) (to_dict two_page_template))
  = Err (KeyError "label").
Proof.
  split; [split; [simpl; tauto|split; [reflexivity|simpl; lia]]|].
  apply (proj1 (proj2 (proj2 (proj2 (from_dict_key_errors two_page_template "label"
    1 0 0 (mk_page "B" [mk_field "email" "email" "Email" EMAIL true None])
    (mk_field "email" "email" "Email" EMAIL true None)))))).
  - simpl; tauto.
  - reflexivity.
  - simpl; lia.
Defined.

(* ------------------------------------------------------------------ *)
(** ** [_validate_page] *)

Section ValidationFacts.

Variable re_match : string -> string -> bool.

Lemma validate_field_self (sub : Submission) (errors : gmap string string)
    (f : FormField) :
  validate_field re_match sub errors f !! ff_name f
  = field_error re_match sub f (errors !! ff_name f).
Proof.
  unfold validate_field, field_error.
  repeat case_match; simplify_map_eq; reflexivity.
Qed.

Lemma validate_field_other (sub : Submission) (errors : gmap string string)
    (f : FormField) (k : string) :
  ff_name f <> k ->
  validate_field re_match sub errors f !! k = errors !! k.
Proof.
  intros Hk. unfold validate_field.
  repeat case_match; rewrite ?lookup_insert_ne by congruence; reflexivity.
Qed.

Lemma validate_fold_other (sub : Submission) (fs : list FormField)
    (errors : gmap string string) (k : string) :
  Forall (fun g => ff_name g <> k) fs ->
  fold_left (validate_field re_match sub) fs errors !! k = errors !! k.
Proof.
  revert errors. induction fs as [|g fs IH]; intros errors Hfs; [reflexivity|].
  inversion Hfs as [|? ? Hg Hrest]; subst. simpl.
  rewrite IH by exact Hrest. apply validate_field_other, Hg.
Qed.

Lemma names_split (fs : list FormField) (f : FormField) :
  In f fs -> NoDup (map ff_name fs) ->
  exists pre post, fs = (pre ++ f :: post)%list /\
    Forall (fun g => ff_name g <> ff_name f) pre /\
    Forall (fun g => ff_name g <> ff_name f) post.
Proof.
  intros Hin Hnd. apply in_split in Hin as (pre & post & ->).
  exists pre, post. split; [reflexivity|].
  rewrite map_app in Hnd. simpl in Hnd.
  apply NoDup_app in Hnd as (_ & Hdisj & Hnd2).
  apply NoDup_cons in Hnd2 as (Hnotin & _).
  split; apply Forall_forall; intros g Hg Heq; apply list_elem_of_In in Hg.
  - apply (Hdisj (ff_name g)).
    + apply list_elem_of_In, in_map, Hg.
    + rewrite Heq. left.
  - apply Hnotin. rewrite <- Heq. apply list_elem_of_In, in_map, Hg.
Qed.

(** With field names unique on the page, the error stored under a
    field's name is decided by that field alone. *)
Lemma validate_page_at (page : FormPage) (sub : Submission) (f : FormField) :
  In f (fp_fields page) -> NoDup (map ff_name (fp_fields page)) ->
  _validate_page re_match page sub !! ff_name f
  = field_error re_match sub f None.
Proof.
  intros Hin Hnd. destruct (names_split _ _ Hin Hnd) as (pre & post & Hfs & Hpre & Hpost).
  unfold _validate_page. rewrite Hfs, fold_left_app. simpl.
  rewrite validate_fold_other by exact Hpost.
  rewrite validate_field_self, validate_fold_other by exact Hpre.
  reflexivity.
Qed.

End ValidationFacts.

Lemma FieldType_eqb_FILE (t : FieldType) : t <> FILE -> FieldType_eqb t FILE = false.
Proof. destruct t; try reflexivity. congruence. Qed.

(** Claim C3 (counterexample): a required text field whose validation
    pattern is [x], submitted as a single space, gets the format error
    ["Name format is invalid"], not ["Name is required"]. And when two
    required fields of a page share the name [name], an empty submission
    leaves one error under that name, the second field's
    ["Second is required"], so the first field does not get its
    ["First is required"]. *)
Lemma required_field_error_exceptions :
  (_validate_page literal_re_match
     (mk_page "A" [mk_field "name" "name" "Name" TEXT true (Some "x")])
     (post_text [("name", " ")]) !! "name" = Some "Name format is invalid" /\
   "Name format is invalid" <> required_message
     (mk_field "name" "name" "Name" TEXT true (Some "x"))) /\
  (_validate_page literal_re_match
     (mk_page "A" [mk_field "first" "name" "First" TEXT true None;
                   mk_field "second" "name" "Second" TEXT true None])
     (post_text []) !! "name" = Some "Second is required" /\
   "Second is required" <> required_message
     (mk_field "first" "name" "First" TEXT true None)).
Proof. split; (split; [reflexivity | discriminate]). Qed.

(** Claim C3 (amended): for a required non-file field of a page whose field
    names are unique, an absent or empty value yields exactly the error
    ["<label> is required"] under the field's name; a whitespace-only value
    (whitespace in the sense of [str.isspace], so U+00A0 counts) yields
    that error too, unless the field has a pattern the value does
    not match, in which case the format error replaces it; a value that is
    not blank yields no error when the field has no pattern. *)
Theorem validate_required_field (re_match : string -> string -> bool)
    (page : FormPage) (sub : Submission) (f : FormField) :
  In f (fp_fields page) -> NoDup (map ff_name (fp_fields page)) ->
  ff_required f = true -> ff_field_type f <> FILE ->
  ((form_data sub !! ff_name f = None \/ form_data sub !! ff_name f = Some "") ->
   _validate_page re_match page sub !! ff_name f = Some (required_message f)) /\
  (forall v, form_data sub !! ff_name f = Some v -> v <> "" ->
   is_blank v = true ->
   _validate_page re_match page sub !! ff_name f =
     Some (if truthy (ff_validation_pattern f) &&
              negb (re_match (match ff_validation_pattern f with
                              | Some p => p | None => "" end) v)
           then format_message f else required_message f)) /\
  (forall v, form_data sub !! ff_name f = Some v -> is_blank v = false ->
   truthy (ff_validation_pattern f) = false ->
   _validate_page re_match page sub !! ff_name f = None).
Proof.
  intros Hin Hnd Hreq Hty.
  rewrite (validate_page_at re_match page sub f Hin Hnd).
  unfold field_error. rewrite Hreq, (FieldType_eqb_FILE _ Hty).
  split; [|split].
  - intros [Hv | Hv]; rewrite Hv; [destruct (truthy _); reflexivity|].
    simpl. destruct (truthy _); reflexivity.
  - intros v Hv Hne Hb. rewrite Hv, Hb, orb_true_r.
    apply String.eqb_neq in Hne. rewrite Hne.
    destruct (truthy _); simpl; [|reflexivity].
    destruct (re_match _ v); reflexivity.
  - intros v Hv Hb Hp. rewrite Hv, Hb, Hp.
    destruct (String.eqb v "") eqn:He; [|reflexivity].
    apply String.eqb_eq in He. subst v. discriminate Hb.
Qed.

Lemma validate_required_field_witness :
  In (mk_field "name" "name" "Name" TEXT true None)
     (fp_fields (mk_page "A" [mk_field "name" "name" "Name" TEXT true None])) /\
  _validate_page literal_re_match
    (mk_page "A" [mk_field "name" "name" "Name" TEXT true None])
    (post_text []) !! "name" = Some "Name is required" /\
  _validate_page literal_re_match
    (mk_page "A" [mk_field "name" "name" "Name" TEXT true None])
    (post_text [("name", nbsp)]) !! "name" = Some "Name is required".
Proof.
  split; [left; reflexivity|split].
  - refine (proj1 (validate_required_field literal_re_match
              (mk_page "A" [mk_field "name" "name" "Name" TEXT true None])
              (post_text []) (mk_field "name" "name" "Name" TEXT true None)
              _ _ _ _) _).
    + left; reflexivity.
    + apply NoDup_singleton.
    + reflexivity.
    + discriminate.
    + left; reflexivity.
  - refine (proj1 (proj2 (validate_required_field literal_re_match
              (mk_page "A" [mk_field "name" "name" "Name" TEXT true None])
              (post_text [("name", nbsp)])
              (mk_field "name" "name" "Name" TEXT true None)
              _ _ _ _)) nbsp _ _ _).
    + left; reflexivity.
    + apply NoDup_singleton.
    + reflexivity.
    + discriminate.
    + reflexivity.
    + discriminate.
    + reflexivity.
Defined.

(** Claim C7 (counterexample): a required text field with the pattern
    [" "] (one space), submitted as a single space, matches its pattern and
    still gets the error ["Name is required"]. And when two optional fields
    of a page share the name [code], with patterns [1] and [2], the value
    [1] matches the first field's pattern yet leaves the second field's
    ["Code2 format is invalid"] under the shared name. *)
Lemma matching_value_gets_error :
  (literal_re_match " " " " = true /\
   _validate_page literal_re_match
     (mk_page "A" [mk_field "name" "name" "Name" TEXT true (Some " ")])
     (post_text [("name", " ")]) !! "name" = Some "Name is required") /\
  (literal_re_match "1" "1" = true /\
   _validate_page literal_re_match
     (mk_page "A" [mk_field "code1" "code" "Code1" TEXT false (Some "1");
                   mk_field "code2" "code" "Code2" TEXT false (Some "2")])
     (post_text [("code", "1")]) !! "code" = Some "Code2 format is invalid").
Proof. split; split; reflexivity. Qed.

(** Claim C7 (amended): for a field with a (non-empty) validation pattern,
    on a page whose field names are unique, the pattern is only checked
    when a non-empty value is posted: a value that does not match yields
    the field's custom message, or ["<label> format is invalid"]; a value
    that matches yields no error unless the field is required and its
    required-value check fails (a whitespace-only value of a non-file
    field, or no uploaded file for a file field), which leaves
    ["<label> is required"]; an absent or empty value of a non-required
    field yields no error. *)
Theorem validate_pattern_field (re_match : string -> string -> bool)
    (page : FormPage) (sub : Submission) (f : FormField) :
  In f (fp_fields page) -> NoDup (map ff_name (fp_fields page)) ->
  truthy (ff_validation_pattern f) = true ->
  (forall v, form_data sub !! ff_name f = Some v -> v <> "" ->
   re_match (match ff_validation_pattern f with Some p => p | None => "" end) v
     = false ->
   _validate_page re_match page sub !! ff_name f = Some (format_message f)) /\
  (forall v, form_data sub !! ff_name f = Some v -> v <> "" ->
   re_match (match ff_validation_pattern f with Some p => p | None => "" end) v
     = true ->
   _validate_page re_match page sub !! ff_name f =
     if ff_required f then
       if FieldType_eqb (ff_field_type f) FILE then
         match files sub !! ff_name f with
         | Some _ => None | None => Some (required_message f)
         end
       else if is_blank v then Some (required_message f) else None
     else None) /\
  (ff_required f = false ->
   (form_data sub !! ff_name f = None \/ form_data sub !! ff_name f = Some "") ->
   _validate_page re_match page sub !! ff_name f = None).
Proof.
  intros Hin Hnd Hpat.
  rewrite (validate_page_at re_match page sub f Hin Hnd).
  unfold field_error. rewrite Hpat.
  split; [|split].
  - intros v Hv Hne Hm. rewrite Hv.
    apply String.eqb_neq in Hne. rewrite Hne, Hm. reflexivity.
  - intros v Hv Hne Hm. rewrite Hv.
    apply String.eqb_neq in Hne. rewrite Hne, Hm.
    destruct (ff_required f); [|reflexivity].
    destruct (FieldType_eqb _ _); [reflexivity|].
    simpl. destruct (is_blank v); reflexivity.
  - intros Hreq [Hv | Hv]; rewrite Hreq, Hv; reflexivity.
Qed.

Lemma validate_pattern_field_witness :
  In (mk_field "zip" "zip" "Zip" TEXT false (Some "97"))
     (fp_fields (mk_page "A" [mk_field "zip" "zip" "Zip" TEXT false (Some "97")])) /\
  _validate_page literal_re_match
    (mk_page "A" [mk_field "zip" "zip" "Zip" TEXT false (Some "97")])
    (post_text [("zip", "12345")]) !! "zip" = Some "Zip format is invalid".
Proof.
  split; [left; reflexivity|].
  refine (proj1 (validate_pattern_field literal_re_match
            (mk_page "A" [mk_field "zip" "zip" "Zip" TEXT false (Some "97")])
            (post_text [("zip", "12345")])
            (mk_field "zip" "zip" "Zip" TEXT false (Some "97"))
            _ _ _) "12345" _ _ _).
  - left; reflexivity.
  - apply NoDup_singleton.
  - reflexivity.
  - reflexivity.
  - discriminate.
  - reflexivity.
Defined.

(* ------------------------------------------------------------------ *)
(** ** [show_page] and [submit_page] *)


(** Claim C4 (failing input): in a fresh session of the two-page template,
    page [A] is posted with an empty [name]. [_validate_page] would report
    [{"name": "Name is required"}], but the handler never calls it:
    [request.files()] raises [AttributeError] and the request ends in a
    500, with no error set and no page re-rendered; the server state is
    left as it was. *)
Theorem submit_with_errors_crashes (re_match : string -> string -> bool) :
  let (srv1, _) := start_application two_page_server "T" "1700000000.5" in
  _validate_page re_match
    (mk_page "A" [mk_field "name" "name" "Name" TEXT true None])
    (post_text [("name", "")]) = {[ "name" := "Name is required" ]} /\
  submit_page srv1 "T" "A" (Some "T_1700000000.5")
    (FormParsed (list_to_map [("name", "")]))
  = (srv1, HTTPException 500 "AttributeError").
Proof. vm_compute. split; reflexivity. Qed.




(** Claim C6 (failing input): in a fresh session of the two-page template,
    the final page [B] is posted with a valid email, for which
    [_validate_page] finds no error. The answer is not the redirect to
    ["/success?session=T_1700000000.5"] but the 500 of [request.files()];
    nothing is recorded, and page [A] is still rendered for the session
    afterwards. *)
Theorem submit_final_page_crashes (re_match : string -> string -> bool) :
  let (srv1, _) := start_application two_page_server "T" "1700000000.5" in
  _validate_page re_match
    (mk_page "B" [mk_field "email" "email" "Email" EMAIL true None])
    (post_text [("email", "ann@example.com")]) = ∅ /\
  submit_page srv1 "T" "B" (Some "T_1700000000.5")
    (FormParsed (list_to_map [("email", "ann@example.com")]))
  = (srv1, HTTPException 500 "AttributeError") /\
  show_page srv1 "T" "A" (Some "T_1700000000.5")
  = HTMLResponse {| html_template := two_page_template;
                    html_page := mk_page "A" [mk_field "name" "name" "Name" TEXT true None];
                    html_session := Some "T_1700000000.5"; html_errors := ∅ |}.
Proof. vm_compute. split; [|split]; reflexivity. Qed.

(* ------------------------------------------------------------------ *)
(** ** The tracker's counters *)

Section TrackerInvariants.

(** The counters no tracker operation writes. *)
Let frozen (tr : InteractionTracker) : Z * Z * Q :=
  (m_validation_errors (tr_metrics tr),
   m_fields_filled_correctly (tr_metrics tr),
   m_completion_percentage (tr_metrics tr)).

Lemma record_interaction_frozen i tr :
  frozen (record_interaction i tr) = frozen tr.
Proof. reflexivity. Qed.

Lemma record_interaction_counts i tr :
  m_total_interactions (tr_metrics (record_interaction i tr))
    = m_total_interactions (tr_metrics tr) + 1 /\
  m_successful_interactions (tr_metrics (record_interaction i tr))
    + m_failed_interactions (tr_metrics (record_interaction i tr))
    = m_successful_interactions (tr_metrics tr)
      + m_failed_interactions (tr_metrics tr) + 1.
Proof. simpl. destruct (i_success i); simpl; lia. Qed.

Lemma step_frozen op tr : frozen (step op tr) = frozen tr.
Proof.
  destruct op; simpl.
  - apply record_interaction_frozen.
  - unfold set_current_page, track_interaction.
    rewrite record_interaction_frozen. reflexivity.
  - unfold track_field_fill. repeat case_match; reflexivity.
  - unfold track_button_click. destruct success; reflexivity.
  - reflexivity.
Qed.

(** [total_interactions - successful_interactions - failed_interactions]
    is left unchanged by every operation. *)
Lemma step_balance op tr :
  m_total_interactions (tr_metrics (step op tr))
    - m_successful_interactions (tr_metrics (step op tr))
    - m_failed_interactions (tr_metrics (step op tr))
  = m_total_interactions (tr_metrics tr)
    - m_successful_interactions (tr_metrics tr)
    - m_failed_interactions (tr_metrics tr).
Proof.
  destruct op; cbn [step].
  - unfold track_interaction.
    match goal with |- context [record_interaction ?i ?t] =>
      pose proof (record_interaction_counts i t) end.
    lia.
  - unfold set_current_page, track_interaction.
    match goal with |- context [record_interaction ?i ?t] =>
      pose proof (record_interaction_counts i t) end.
    simpl in *. lia.
  - unfold track_field_fill.
    match goal with |- context [record_interaction ?i ?t] =>
      pose proof (record_interaction_counts i t) end.
    repeat case_match; simpl in *; lia.
  - unfold track_button_click, track_interaction.
    match goal with |- context [record_interaction ?i ?t] =>
      pose proof (record_interaction_counts i t) end.
    destruct success; simpl in *; lia.
  - reflexivity.
Qed.

Lemma run_ops_frozen ops tr : frozen (run_ops ops tr) = frozen tr.
Proof.
  revert tr. induction ops as [|op ops IH]; intros tr; [reflexivity|].
  simpl. rewrite IH. apply step_frozen.
Qed.

Lemma run_ops_balance ops tr :
  m_total_interactions (tr_metrics (run_ops ops tr))
    - m_successful_interactions (tr_metrics (run_ops ops tr))
    - m_failed_interactions (tr_metrics (run_ops ops tr))
  = m_total_interactions (tr_metrics tr)
    - m_successful_interactions (tr_metrics tr)
    - m_failed_interactions (tr_metrics tr).
Proof.
  revert tr. induction ops as [|op ops IH]; intros tr; [reflexivity|].
  simpl. rewrite IH. apply step_balance.
Qed.

(** Session-level [validation_errors], [fields_filled_correctly] and
    [completion_percentage] keep their initial values forever. *)
Lemma run_ops_new_tracker_frozen ops session_id template_id now :
  m_validation_errors (tr_metrics (run_ops ops (new_tracker session_id template_id now))) = 0 /\
  m_fields_filled_correctly (tr_metrics (run_ops ops (new_tracker session_id template_id now))) = 0 /\
  m_completion_percentage (tr_metrics (run_ops ops (new_tracker session_id template_id now))) = 0%Q.
Proof.
  pose proof (run_ops_frozen ops (new_tracker session_id template_id now)) as H.
  unfold frozen in H. simpl in H. injection H as H1 H2 H3.
  rewrite H1, H2, H3. repeat split.
Qed.

End TrackerInvariants.

(** Claim C8: for every tracker created by [__init__] and every sequence of
    calls to [track_interaction], [track_field_fill], [track_button_click],
    [set_current_page] and [finalize_session], the session metrics satisfy
    [total_interactions == successful_interactions + failed_interactions]. *)
Theorem total_is_successful_plus_failed (ops : list TrackerOp)
    (session_id template_id : string) (now : Z) :
  m_total_interactions (tr_metrics (run_ops ops (new_tracker session_id template_id now)))
  = m_successful_interactions (tr_metrics (run_ops ops (new_tracker session_id template_id now)))
    + m_failed_interactions (tr_metrics (run_ops ops (new_tracker session_id template_id now))).
Proof.
  pose proof (run_ops_balance ops (new_tracker session_id template_id now)) as H.
  simpl in H. lia.
Qed.

Lemma pm_track_validation_error (pm : PageMetrics) (i : Interaction) :
  i_interaction_type i = VALIDATION_ERROR ->
  pm_validation_errors (pm_track pm i) = pm_validation_errors pm + 1.
Proof.
  intros H. unfold pm_track. rewrite H.
  rewrite !(bool_decide_eq_false_2 (VALIDATION_ERROR = _)) by discriminate.
  rewrite bool_decide_eq_true_2 by reflexivity. simpl. lia.
Qed.

(** Claim C10: the session-level [TestSessionMetrics.validation_errors]
    stays 0 after every sequence of tracker calls, so the
    ["validation_errors"] entry of the exported metrics is always 0; a
    [VALIDATION_ERROR] interaction leaves it unchanged and, when a current
    page is set, increments that page's [PageMetrics.validation_errors] by
    one and touches no other page's metrics; with no current page no page
    metrics change. *)
Theorem session_validation_errors_stay_zero (ops : list TrackerOp)
    (session_id template_id : string) (start : Z) :
  m_validation_errors (tr_metrics (run_ops ops (new_tracker session_id template_id start))) = 0 /\
  obj_get (export_metrics (run_ops ops (new_tracker session_id template_id start)))
    "validation_errors" = Some (JNum 0) /\
  (forall tr now eid sel lbl act v success err url ttl d md,
   let tr' := track_interaction now VALIDATION_ERROR eid sel lbl act v success
                err url ttl d md tr in
   m_validation_errors (tr_metrics tr') = m_validation_errors (tr_metrics tr) /\
   (forall pid, tr_current_page_id tr = Some pid -> pid <> "" ->
    option_map pm_validation_errors (m_pages_metrics (tr_metrics tr') !! pid)
      = Some (match m_pages_metrics (tr_metrics tr) !! pid with
              | Some pm => pm_validation_errors pm | None => 0 end + 1) /\
    (forall q, q <> pid ->
     m_pages_metrics (tr_metrics tr') !! q = m_pages_metrics (tr_metrics tr) !! q)) /\
   (tr_current_page_id tr = None ->
    m_pages_metrics (tr_metrics tr') = m_pages_metrics (tr_metrics tr))).
Proof.
  destruct (run_ops_new_tracker_frozen ops session_id template_id start)
    as (H0 & _ & _).
  split; [exact H0|split].
  - unfold export_metrics. rewrite H0. reflexivity.
  - intros tr now eid sel lbl act v success err url ttl d md tr'.
    split; [reflexivity|split].
    + intros pid Hpid Hne. subst tr'.
      unfold track_interaction, record_interaction. cbn [tr_metrics tr_with m_with_counts m_pages_metrics].
      rewrite Hpid. apply String.eqb_neq in Hne. rewrite Hne.
      split.
      * rewrite lookup_insert_eq. cbn [option_map].
        rewrite pm_track_validation_error by reflexivity.
        destruct (m_pages_metrics (tr_metrics tr) !! pid); reflexivity.
      * intros q Hq. apply lookup_insert_ne. congruence.
    + intros Hnone. subst tr'.
      unfold track_interaction, record_interaction. simpl.
      rewrite Hnone. reflexivity.
Qed.

Lemma session_validation_errors_stay_zero_witness :
  option_map pm_validation_errors
    (m_pages_metrics (tr_metrics
       (track_interaction 2 VALIDATION_ERROR None None None None None false
          None None None None None
          (set_current_page 1 "p1" "/p1" "" (new_tracker "s" "T" 0)))) !! "p1")
  = Some 1.
Proof.
  refine (eq_trans (proj1 (proj1 (proj2 (proj2 (proj2
    (session_validation_errors_stay_zero [] "s" "T" 0))
    (set_current_page 1 "p1" "/p1" "" (new_tracker "s" "T" 0))
    2 None None None None None false None None None None None)) "p1"
    eq_refl ltac:(discriminate))) _).
  reflexivity.
Defined.

(** Claim C1 (code bug): on [two_required_template] (two required
    fields), an agent run that loads page [p1], fills [name] successfully
    and finalizes the session ends with [completion_percentage] 0, not
    50: [finalize_session] sums the required fields over the literal empty
    list and [fields_filled_correctly] is never incremented. *)
Theorem finalize_session_completion_is_zero :
  required_field_count (ft_pages two_required_template) = 2 /\
  option_map pm_fields_filled
    (m_pages_metrics (tr_metrics (run_ops one_of_two_filled_run
                                    (new_tracker "s" "T" 0))) !! "p1") = Some 1 /\
  m_fields_filled_correctly
    (tr_metrics (run_ops one_of_two_filled_run (new_tracker "s" "T" 0))) = 0 /\
  (m_completion_percentage
     (tr_metrics (run_ops one_of_two_filled_run (new_tracker "s" "T" 0))) == 0)%Q /\
  ~ (m_completion_percentage
       (tr_metrics (run_ops one_of_two_filled_run (new_tracker "s" "T" 0))) == 50)%Q.
Proof.
  split; [reflexivity|split; [reflexivity|split; [reflexivity|split]]].
  - reflexivity.
  - vm_compute. discriminate.
Qed.

(* ------------------------------------------------------------------ *)
(** ** The tracker's logs and per-page metrics *)

Lemma count_where_snoc p l i :
  count_where p (l ++ [i])%list = count_where p l + (if p i then 1 else 0).
Proof. unfold count_where. rewrite List.filter_app, length_app. simpl. destruct (p i); simpl; lia. Qed.

(** Each operation appends at most one interaction to the log and moves
    the session counters with it. *)
Lemma step_log op tr :
  (tr_interactions (step op tr) = tr_interactions tr /\
   m_total_interactions (tr_metrics (step op tr)) = m_total_interactions (tr_metrics tr) /\
   m_successful_interactions (tr_metrics (step op tr)) = m_successful_interactions (tr_metrics tr) /\
   m_failed_interactions (tr_metrics (step op tr)) = m_failed_interactions (tr_metrics tr)) \/
  exists i,
   tr_interactions (step op tr) = (tr_interactions tr ++ [i])%list /\
   m_total_interactions (tr_metrics (step op tr)) = m_total_interactions (tr_metrics tr) + 1 /\
   m_successful_interactions (tr_metrics (step op tr))
     = m_successful_interactions (tr_metrics tr) + (if i_success i then 1 else 0) /\
   m_failed_interactions (tr_metrics (step op tr))
     = m_failed_interactions (tr_metrics tr) + (if i_success i then 0 else 1).
Proof.
  destruct op; cbn [step].
  - right. unfold track_interaction, record_interaction.
    eexists. split; [reflexivity|]. simpl. destruct success; simpl; lia.
  - right. unfold set_current_page, track_interaction, record_interaction.
    eexists. split; [reflexivity|]. simpl. lia.
  - right. unfold track_field_fill.
    match goal with |- context [record_interaction ?i _] => exists i end.
    destruct success; cbn [i_success make_interaction]; repeat case_match; simpl; (split; [reflexivity|]); simpl; lia.
  - right. unfold track_button_click, track_interaction, record_interaction.
    eexists. split; [reflexivity|]. destruct success; simpl; lia.
  - left. repeat split.
Qed.

Lemma log_run ops tr :
  m_total_interactions (tr_metrics tr) = Z.of_nat (length (tr_interactions tr)) ->
  m_successful_interactions (tr_metrics tr) = count_where i_success (tr_interactions tr) ->
  m_failed_interactions (tr_metrics tr)
    = count_where (fun i => negb (i_success i)) (tr_interactions tr) ->
  let tr' := run_ops ops tr in
  m_total_interactions (tr_metrics tr') = Z.of_nat (length (tr_interactions tr')) /\
  m_successful_interactions (tr_metrics tr') = count_where i_success (tr_interactions tr') /\
  m_failed_interactions (tr_metrics tr')
    = count_where (fun i => negb (i_success i)) (tr_interactions tr').
Proof.
  revert tr. induction ops as [|op ops IH]; intros tr H1 H2 H3; [done|].
  apply IH; destruct (step_log op tr) as [(E & E1 & E2 & E3)|(i & E & E1 & E2 & E3)];
    rewrite E, ?E1, ?E2, ?E3; try done.
  - rewrite length_app. simpl. lia.
  - rewrite count_where_snoc. destruct (i_success i); lia.
  - rewrite count_where_snoc. destruct (i_success i); simpl; lia.
Qed.

(** The session counters of [track_interaction] agree with the log:
    [total_interactions] is its length, [successful_interactions] the
    number of successful entries, [failed_interactions] the number of
    failed ones. *)
Theorem tracker_counters_match_log (ops : list TrackerOp)
    (session_id template_id : string) (now : Z) :
  let tr := run_ops ops (new_tracker session_id template_id now) in
  m_total_interactions (tr_metrics tr) = Z.of_nat (length (tr_interactions tr)) /\
  m_successful_interactions (tr_metrics tr) = count_where i_success (tr_interactions tr) /\
  m_failed_interactions (tr_metrics tr)
    = count_where (fun i => negb (i_success i)) (tr_interactions tr).
Proof. apply log_run; reflexivity. Qed.

Lemma record_interaction_pages i tr :
  pages_consistent tr -> pages_consistent (record_interaction i tr).
Proof.
  intros (Hnd & Hdom & Hcur). unfold pages_consistent, record_interaction.
  cbn [tr_metrics tr_with m_with_counts m_pages_visited m_pages_metrics tr_current_page_id].
  split; [done|split; [|done]].
  intros p. destruct (tr_current_page_id tr) as [pid|] eqn:E; [|apply Hdom].
  destruct (String.eqb pid ""); [apply Hdom|].
  destruct (decide (p = pid)) as [->|Hne].
  - rewrite lookup_insert_eq. split; [intros _; by apply Hcur|intros _; eauto].
  - rewrite lookup_insert_ne by congruence. apply Hdom.
Qed.

Lemma step_pages op tr : pages_consistent tr -> pages_consistent (step op tr).
Proof.
  intros Hinv. destruct op; cbn [step].
  - by apply record_interaction_pages.
  - unfold set_current_page, track_interaction. apply record_interaction_pages.
    destruct Hinv as (Hnd & Hdom & Hcur).
    unfold pages_consistent.
    cbn [tr_metrics tr_with m_with_pages m_pages_visited m_pages_metrics tr_current_page_id].
    assert (Hin : page_id ∈ (if bool_decide (page_id ∈ m_pages_visited (tr_metrics tr))
                  then m_pages_visited (tr_metrics tr)
                  else (m_pages_visited (tr_metrics tr) ++ [page_id])%list)).
    { case_bool_decide; [done|]. apply elem_of_app. right. by apply list_elem_of_singleton. }
    split; [|split].
    + case_bool_decide; [done|]. apply NoDup_app. split; [done|split].
      * intros x Hx Hx'. apply list_elem_of_singleton in Hx'. subst. done.
      * apply NoDup_singleton.
    + intros p. destruct (decide (p = page_id)) as [->|Hne].
      * split; [done|intros _]. destruct (m_pages_metrics (tr_metrics tr) !! page_id) eqn:E.
        -- rewrite E. eauto.
        -- rewrite lookup_insert_eq. eauto.
      * transitivity (is_Some (m_pages_metrics (tr_metrics tr) !! p)).
        { destruct (m_pages_metrics (tr_metrics tr) !! page_id); [done|].
          rewrite lookup_insert_ne by congruence. done. }
        rewrite Hdom. case_bool_decide; [done|].
        rewrite elem_of_app, list_elem_of_singleton. naive_solver.
    + intros pid [= <-]. done.
  - unfold track_field_fill.
    pose proof (record_interaction_pages
      (make_interaction tr now (if success then FIELD_FILL else FIELD_FILL_ATTEMPT)
         (Some field_id) (Some ("#" ++ field_id)) (Some field_label) (Some "fill")
         value success error_message None None duration_ms
         [("field_name", JStr field_name); ("field_type", JStr field_type)]) tr Hinv)
      as Hr.
    revert Hr.
    generalize (record_interaction
      (make_interaction tr now (if success then FIELD_FILL else FIELD_FILL_ATTEMPT)
         (Some field_id) (Some ("#" ++ field_id)) (Some field_label) (Some "fill")
         value success error_message None None duration_ms
         [("field_name", JStr field_name); ("field_type", JStr field_type)]) tr).
    intros tr' Hr. pose proof Hr as (Hnd & Hdom & Hcur).
    destruct (tr_current_page_id tr') as [pid|] eqn:Ec; [|exact Hr].
    destruct (String.eqb pid ""); [exact Hr|].
    destruct (m_pages_metrics (tr_metrics tr') !! pid) as [pm|] eqn:Epm; [|exact Hr].
    unfold pages_consistent.
    cbn [tr_metrics tr_with m_with_pages m_pages_visited m_pages_metrics tr_current_page_id].
    split; [done|split; [|intros q [= <-]; by apply Hcur]].
    intros p. destruct (decide (p = pid)) as [->|Hne].
    + rewrite lookup_insert_eq. rewrite <- Hdom, Epm. done.
    + rewrite lookup_insert_ne by congruence. apply Hdom.
  - unfold track_button_click.
    pose proof (record_interaction_pages
      (make_interaction tr now (if success then BUTTON_CLICK else BUTTON_CLICK_ATTEMPT)
         button_id (Some button_selector) (Some button_text) (Some "click") None
         success error_message None None duration_ms []) tr Hinv) as (Hnd & Hdom & Hcur).
    destruct success; unfold pages_consistent; cbn [tr_metrics tr_with m_with_buttons
      m_pages_visited m_pages_metrics tr_current_page_id];
      unfold track_interaction; (split; [done|split; [done|]]); done.
  - destruct Hinv as (Hnd & Hdom & Hcur). unfold pages_consistent. done.
Qed.

(** [set_current_page] and [track_interaction] keep [pages_visited] free
    of duplicates, and a page has an entry in [pages_metrics] exactly when
    it is in [pages_visited]. *)
Theorem visited_pages_have_metrics (ops : list TrackerOp)
    (session_id template_id : string) (now : Z) :
  let tr := run_ops ops (new_tracker session_id template_id now) in
  NoDup (m_pages_visited (tr_metrics tr)) /\
  (forall p, is_Some (m_pages_metrics (tr_metrics tr) !! p) <->
             p ∈ m_pages_visited (tr_metrics tr)).
Proof.
  assert (H : forall tr, pages_consistent tr -> pages_consistent (run_ops ops tr)).
  { induction ops as [|op ops IH]; intros tr Hi; [done|]. apply IH. by apply step_pages. }
  destruct (H (new_tracker session_id template_id now)) as (Hnd & Hdom & _).
  - unfold pages_consistent. simpl. split; [constructor|split].
    + intros p. rewrite lookup_empty. split; [intros []; discriminate|].
      intros Hp. apply not_elem_of_nil in Hp. done.
    + discriminate.
  - simpl. done.
Qed.

Lemma pm_track_counts pm i : pm_counts_ok pm -> pm_counts_ok (pm_track pm i).
Proof.
  unfold pm_counts_ok, pm_track, has_type. cbn [pm_fields_filled pm_buttons_clicked
    pm_buttons_click_attempts pm_validation_errors pm_interactions].
  rewrite !count_where_snoc. intros (H1 & H2 & H3 & H4).
  rewrite H1, H2, H3, H4.
  destruct (i_success i); repeat case_bool_decide; simpl; try congruence; lia.
Qed.

Lemma new_PageMetrics_counts page_id page_url page_title :
  pm_counts_ok (new_PageMetrics page_id page_url page_title).
Proof. repeat split. Qed.

Lemma record_interaction_page_counts i tr :
  map_Forall (fun _ => pm_counts_ok) (m_pages_metrics (tr_metrics tr)) ->
  map_Forall (fun _ => pm_counts_ok) (m_pages_metrics (tr_metrics (record_interaction i tr))).
Proof.
  intros H. unfold record_interaction.
  cbn [tr_metrics tr_with m_with_counts m_pages_metrics].
  destruct (tr_current_page_id tr) as [pid|]; [|done].
  destruct (String.eqb pid ""); [done|].
  apply map_Forall_insert_2; [|done].
  apply pm_track_counts. destruct (m_pages_metrics (tr_metrics tr) !! pid) eqn:E.
  - by apply (H _ _ E).
  - apply new_PageMetrics_counts.
Qed.

Lemma step_page_counts op tr :
  map_Forall (fun _ => pm_counts_ok) (m_pages_metrics (tr_metrics tr)) ->
  map_Forall (fun _ => pm_counts_ok) (m_pages_metrics (tr_metrics (step op tr))).
Proof.
  intros H. destruct op; cbn [step].
  - by apply record_interaction_page_counts.
  - unfold set_current_page, track_interaction. apply record_interaction_page_counts.
    cbn [tr_metrics tr_with m_with_pages m_pages_metrics].
    destruct (m_pages_metrics (tr_metrics tr) !! page_id); [done|].
    apply map_Forall_insert_2; [apply new_PageMetrics_counts|done].
  - unfold track_field_fill.
    match goal with |- context [record_interaction ?i tr] =>
      pose proof (record_interaction_page_counts i tr H) as Hr;
      revert Hr; generalize (record_interaction i tr) end.
    intros tr' Hr.
    destruct (tr_current_page_id tr') as [pid|]; [|done].
    destruct (String.eqb pid ""); [done|].
    destruct (m_pages_metrics (tr_metrics tr') !! pid) as [pm|] eqn:E; [|done].
    cbn [tr_metrics tr_with m_with_pages m_pages_metrics].
    apply map_Forall_insert_2; [|done].
    pose proof (Hr _ _ E) as Hpm. exact Hpm.
  - unfold track_button_click, track_interaction.
    match goal with |- context [record_interaction ?i tr] =>
      pose proof (record_interaction_page_counts i tr H) as Hr end.
    destruct success; exact Hr.
  - exact H.
Qed.

(** The counters of every page's [PageMetrics] agree with its own
    interaction list: [fields_filled] counts its successful FIELD_FILL
    entries, [buttons_clicked] its successful BUTTON_CLICK entries,
    [buttons_click_attempts] and [validation_errors] its entries of those
    types. *)
Theorem page_counters_match_page_log (ops : list TrackerOp)
    (session_id template_id : string) (now : Z) (page_id : string) (pm : PageMetrics) :
  m_pages_metrics (tr_metrics (run_ops ops (new_tracker session_id template_id now)))
    !! page_id = Some pm ->
  pm_fields_filled pm
    = count_where (fun i => has_type FIELD_FILL i && i_success i) (pm_interactions pm) /\
  pm_buttons_clicked pm
    = count_where (fun i => has_type BUTTON_CLICK i && i_success i) (pm_interactions pm) /\
  pm_buttons_click_attempts pm
    = count_where (has_type BUTTON_CLICK_ATTEMPT) (pm_interactions pm) /\
  pm_validation_errors pm
    = count_where (has_type VALIDATION_ERROR) (pm_interactions pm).
Proof.
  assert (H : forall tr, map_Forall (fun _ => pm_counts_ok) (m_pages_metrics (tr_metrics tr)) ->
                map_Forall (fun _ => pm_counts_ok)
                  (m_pages_metrics (tr_metrics (run_ops ops tr)))).
  { induction ops as [|op ops IH]; intros tr Hi; [done|]. apply IH. by apply step_page_counts. }
  intros E. apply (H (new_tracker session_id template_id now) (map_Forall_empty _) _ _ E).
Qed.

Lemma page_counters_match_page_log_witness :
  exists pm,
  m_pages_metrics (tr_metrics (run_ops one_of_two_filled_run (new_tracker "s" "T" 0)))
    !! "p1" = Some pm /\
  pm_fields_filled pm
    = count_where (fun i => has_type FIELD_FILL i && i_success i) (pm_interactions pm).
Proof.
  eexists. split; [vm_compute; reflexivity|].
  exact (proj1 (page_counters_match_page_log one_of_two_filled_run "s" "T" 0 "p1" _
                  ltac:(vm_compute; reflexivity))).
Defined.

(** With a current page set, [track_field_fill] appends one interaction to
    the log and to the field's [attempts]; [final_value] becomes the value
    on success and is kept on failure; [was_filled] becomes true on
    success; a failed fill with a non-empty message appends it to the
    field's [validation_errors]. *)
Theorem track_field_fill_updates_field (now : Z)
    (field_id field_name field_label field_type : string) (value : option json)
    (success : bool) (error_message : option string) (duration_ms : option Z)
    (tr : InteractionTracker) (pid : string) :
  tr_current_page_id tr = Some pid -> pid <> "" ->
  let tr' := track_field_fill now field_id field_name field_label field_type value
               success error_message duration_ms tr in
  let old := m_pages_metrics (tr_metrics tr) !! pid ≫=
               (fun pm => pm_field_interactions pm !! field_id) in
  exists pm fi i,
    m_pages_metrics (tr_metrics tr') !! pid = Some pm /\
    pm_field_interactions pm !! field_id = Some fi /\
    tr_interactions tr' = (tr_interactions tr ++ [i])%list /\
    fi_attempts fi = (match old with Some o => fi_attempts o | None => [] end ++ [i])%list /\
    fi_final_value fi = (if success then value else old ≫= fi_final_value) /\
    fi_was_filled fi
      = (success || match old with Some o => fi_was_filled o | None => false end) /\
    fi_validation_errors fi
      = (match old with Some o => fi_validation_errors o | None => [] end ++
         (if success then []
          else match error_message with
               | Some e => if String.eqb e "" then [] else [e]
               | None => [] end))%list.
Proof.
  intros Hcur Hne tr' old. subst tr'. unfold track_field_fill.
  match goal with |- context [record_interaction ?i tr] => set (ii := i) end.
  assert (Hc : tr_current_page_id (record_interaction ii tr) = Some pid) by exact Hcur.
  rewrite Hc. apply String.eqb_neq in Hne. rewrite Hne.
  set (pm0 := match m_pages_metrics (tr_metrics tr) !! pid with
              | Some pm => pm
              | None => new_PageMetrics pid (match tr_current_page_url tr with
                                             | Some u => u | None => "" end) "" end).
  assert (Hpm : m_pages_metrics (tr_metrics (record_interaction ii tr)) !! pid
                = Some (pm_track pm0 ii)).
  { unfold record_interaction. cbn [tr_metrics tr_with m_with_counts m_pages_metrics].
    rewrite Hcur, Hne. apply lookup_insert_eq. }
  rewrite Hpm.
  assert (Hold : pm_field_interactions (pm_track pm0 ii) !! field_id = old).
  { subst old pm0. cbn [pm_track pm_field_interactions].
    destruct (m_pages_metrics (tr_metrics tr) !! pid); reflexivity. }
  cbn [tr_metrics tr_with m_with_pages m_pages_metrics tr_interactions].
  eexists _, _, ii. split; [apply lookup_insert_eq|].
  cbn [pm_with_fields pm_field_interactions]. split; [apply lookup_insert_eq|].
  split; [reflexivity|].
  rewrite Hold. destruct old as [o|]; cbn [fi_track fi_attempts fi_final_value
    fi_was_filled fi_validation_errors]; destruct success; simpl;
    repeat split; try reflexivity;
    try (destruct error_message as [e|]; [destruct (String.eqb e "")|]; simpl;
         rewrite ?app_nil_r; reflexivity).
Qed.

Lemma track_field_fill_updates_field_witness :
  exists pm fi i,
    m_pages_metrics (tr_metrics (track_field_fill 2 "name" "name" "Name" "text"
       (Some (JStr "Ann")) true None None
       (set_current_page 1 "p1" "/p1" "" (new_tracker "s" "T" 0)))) !! "p1" = Some pm /\
    pm_field_interactions pm !! "name" = Some fi /\
    tr_interactions (track_field_fill 2 "name" "name" "Name" "text"
       (Some (JStr "Ann")) true None None
       (set_current_page 1 "p1" "/p1" "" (new_tracker "s" "T" 0)))
      = (tr_interactions (set_current_page 1 "p1" "/p1" "" (new_tracker "s" "T" 0)) ++ [i])%list /\
    fi_attempts fi = [i] /\ fi_final_value fi = Some (JStr "Ann") /\ fi_was_filled fi = true.
Proof.
  destruct (track_field_fill_updates_field 2 "name" "name" "Name" "text"
       (Some (JStr "Ann")) true None None
       (set_current_page 1 "p1" "/p1" "" (new_tracker "s" "T" 0)) "p1"
       eq_refl ltac:(discriminate)) as (pm & fi & i & H1 & H2 & H3 & H4 & H5 & H6 & _).
  exists pm, fi, i. repeat split; assumption.
Defined.

Lemma step_session_fields op tr :
  m_fields_filled (tr_metrics (step op tr)) = m_fields_filled (tr_metrics tr) /\
  m_fields_missed (tr_metrics (step op tr)) = m_fields_missed (tr_metrics tr) /\
  m_fields_incorrect (tr_metrics (step op tr)) = m_fields_incorrect (tr_metrics tr).
Proof.
  destruct op; cbn [step].
  - done.
  - done.
  - unfold track_field_fill. repeat case_match; done.
  - unfold track_button_click. destruct success; done.
  - done.
Qed.

(** No tracker operation touches the session's [fields_filled],
    [fields_missed] or [fields_incorrect]: they stay 0, [] and [], and
    [export_to_json] reports them so. *)
Theorem session_fields_filled_stays_zero (ops : list TrackerOp)
    (session_id template_id : string) (now : Z) :
  let tr := run_ops ops (new_tracker session_id template_id now) in
  m_fields_filled (tr_metrics tr) = 0 /\
  m_fields_missed (tr_metrics tr) = [] /\
  m_fields_incorrect (tr_metrics tr) = [] /\
  obj_get (export_metrics tr) "fields_filled" = Some (JNum 0) /\
  obj_get (export_metrics tr) "fields_missed" = Some (JArr []) /\
  obj_get (export_metrics tr) "fields_incorrect" = Some (JArr []).
Proof.
  assert (H : forall tr,
    m_fields_filled (tr_metrics (run_ops ops tr)) = m_fields_filled (tr_metrics tr) /\
    m_fields_missed (tr_metrics (run_ops ops tr)) = m_fields_missed (tr_metrics tr) /\
    m_fields_incorrect (tr_metrics (run_ops ops tr)) = m_fields_incorrect (tr_metrics tr)).
  { induction ops as [|op ops IH]; intros tr; [done|]. simpl.
    destruct (IH (step op tr)) as (-> & -> & ->). apply step_session_fields. }
  destruct (H (new_tracker session_id template_id now)) as (H1 & H2 & H3).
  simpl in H1, H2, H3. cbv zeta. unfold export_metrics. cbn [obj_get].
  rewrite H1, H2, H3. repeat split.
Qed.

Lemma step_buttons op tr :
  m_buttons_clicked (tr_metrics tr)
    <= count_where (fun i => has_type BUTTON_CLICK i && i_success i) (tr_interactions tr) ->
  m_buttons_failed (tr_metrics tr)
    <= count_where (fun i => has_type BUTTON_CLICK_ATTEMPT i && negb (i_success i))
         (tr_interactions tr) ->
  m_buttons_clicked (tr_metrics (step op tr))
    <= count_where (fun i => has_type BUTTON_CLICK i && i_success i) (tr_interactions (step op tr)) /\
  m_buttons_failed (tr_metrics (step op tr))
    <= count_where (fun i => has_type BUTTON_CLICK_ATTEMPT i && negb (i_success i))
         (tr_interactions (step op tr)).
Proof.
  intros H1 H2.
  destruct op eqn:Eop.
  4: { cbn [step]. unfold track_button_click, track_interaction, record_interaction.
       destruct success; cbn [tr_metrics tr_with m_with_buttons m_with_counts
         m_buttons_clicked m_buttons_failed tr_interactions];
       rewrite !count_where_snoc; unfold has_type at 2 4; cbn;
       repeat case_bool_decide; simpl; try congruence; lia. }
  all: assert (Hb : m_buttons_clicked (tr_metrics (step op tr)) = m_buttons_clicked (tr_metrics tr) /\
                    m_buttons_failed (tr_metrics (step op tr)) = m_buttons_failed (tr_metrics tr))
         by (subst op; cbn [step]; unfold track_field_fill; repeat case_match; done).
  all: rewrite <- Eop; destruct Hb as [-> ->];
       destruct (step_log op tr) as [(E & _)|(i & E & _)]; rewrite E; [lia|];
       rewrite !count_where_snoc; split; case_match; lia.
Qed.

(** The session's [buttons_clicked] is at most the number of successful
    BUTTON_CLICK entries of the log, and [buttons_failed] at most the
    number of failed BUTTON_CLICK_ATTEMPT entries. *)
Theorem session_button_counts_bounded_by_log (ops : list TrackerOp)
    (session_id template_id : string) (now : Z) :
  let tr := run_ops ops (new_tracker session_id template_id now) in
  m_buttons_clicked (tr_metrics tr)
    <= count_where (fun i => has_type BUTTON_CLICK i && i_success i) (tr_interactions tr) /\
  m_buttons_failed (tr_metrics tr)
    <= count_where (fun i => has_type BUTTON_CLICK_ATTEMPT i && negb (i_success i))
         (tr_interactions tr).
Proof.
  cbv zeta.
  assert (H : forall tr,
    m_buttons_clicked (tr_metrics tr)
      <= count_where (fun i => has_type BUTTON_CLICK i && i_success i) (tr_interactions tr) ->
    m_buttons_failed (tr_metrics tr)
      <= count_where (fun i => has_type BUTTON_CLICK_ATTEMPT i && negb (i_success i))
           (tr_interactions tr) ->
    m_buttons_clicked (tr_metrics (run_ops ops tr))
      <= count_where (fun i => has_type BUTTON_CLICK i && i_success i)
           (tr_interactions (run_ops ops tr)) /\
    m_buttons_failed (tr_metrics (run_ops ops tr))
      <= count_where (fun i => has_type BUTTON_CLICK_ATTEMPT i && negb (i_success i))
           (tr_interactions (run_ops ops tr))).
  { induction ops as [|op ops IH]; intros tr H1 H2; [done|].
    destruct (step_buttons op tr H1 H2). by apply IH. }
  apply H; unfold count_where; simpl; lia.
Qed.

(* ------------------------------------------------------------------ *)
(** ** The routes of the form server *)

Lemma field_error_cases re_match sub f old msg :
  field_error re_match sub f old = Some msg ->
  old = Some msg \/ msg = required_message f \/ msg = format_message f.
Proof.
  unfold field_error. intros H.
  repeat case_match; simplify_eq; auto.
Qed.

Lemma validate_field_entry re_match sub errors f k msg :
  validate_field re_match sub errors f !! k = Some msg ->
  errors !! k = Some msg \/
  (ff_name f = k /\ (msg = required_message f \/ msg = format_message f)).
Proof.
  destruct (decide (ff_name f = k)) as [<-|Hne].
  - rewrite validate_field_self. intros H.
    destruct (field_error_cases _ _ _ _ _ H) as [?|?]; auto.
  - rewrite validate_field_other by exact Hne. auto.
Qed.

Lemma validate_fold_entry re_match sub fs errors k msg :
  fold_left (validate_field re_match sub) fs errors !! k = Some msg ->
  errors !! k = Some msg \/
  exists f, In f fs /\ ff_name f = k /\
            (msg = required_message f \/ msg = format_message f).
Proof.
  revert errors. induction fs as [|g fs IH]; intros errors H; [auto|].
  simpl in H. destruct (IH _ H) as [H'|(f & Hin & Hk & Hm)].
  - destruct (validate_field_entry _ _ _ _ _ _ H') as [?|(Hk & Hm)]; [auto|].
    right. exists g. simpl. auto.
  - right. exists f. simpl. auto.
Qed.

(** Every error of [_validate_page] is keyed by the name of a field of the
    page and carries that field's required message or its format message.
    *)
Theorem validate_page_errors_name_fields (re_match : string -> string -> bool)
    (page : FormPage) (sub : Submission) (k msg : string) :
  _validate_page re_match page sub !! k = Some msg ->
  exists f, In f (fp_fields page) /\ ff_name f = k /\
            (msg = required_message f \/ msg = format_message f).
Proof.
  unfold _validate_page. intros H.
  destruct (validate_fold_entry _ _ _ _ _ _ H) as [H'|?]; [|done].
  rewrite lookup_empty in H'. discriminate.
Qed.

Lemma validate_page_errors_name_fields_witness :
  _validate_page literal_re_match
    (mk_page "A" [mk_field "name" "name" "Name" TEXT true None]) (post_text [])
    !! "name" = Some "Name is required" /\
  exists f, In f [mk_field "name" "name" "Name" TEXT true None] /\ ff_name f = "name" /\
    ("Name is required" = required_message f \/ "Name is required" = format_message f).
Proof.
  split; [vm_compute; reflexivity|].
  exact (validate_page_errors_name_fields literal_re_match
    (mk_page "A" [mk_field "name" "name" "Name" TEXT true None]) (post_text [])
    "name" "Name is required" ltac:(vm_compute; reflexivity)).
Defined.

Lemma validate_field_optional re_match sub errors f :
  ff_required f = false -> truthy (ff_validation_pattern f) = false ->
  validate_field re_match sub errors f = errors.
Proof. intros Hr Hp. unfold validate_field. rewrite Hr, Hp. reflexivity. Qed.

(** A page whose fields are all optional and have no validation pattern
    never gets a validation error. *)
Theorem optional_page_always_valid (re_match : string -> string -> bool)
    (page : FormPage) (sub : Submission) :
  Forall (fun f => ff_required f = false /\ truthy (ff_validation_pattern f) = false)
    (fp_fields page) ->
  _validate_page re_match page sub = ∅.
Proof.
  unfold _validate_page. generalize (∅ : gmap string string) as errors.
  induction (fp_fields page) as [|f fs IH]; intros errors H; [reflexivity|].
  inversion H as [|? ? (Hr & Hp) Hrest]; subst. simpl.
  rewrite validate_field_optional by assumption. apply IH, Hrest.
Qed.

Lemma optional_page_always_valid_witness :
  _validate_page literal_re_match
    (mk_page "A" [mk_field "note" "note" "Note" TEXTAREA false None]) (post_text []) = ∅.
Proof.
  apply optional_page_always_valid.
  repeat constructor.
Defined.

Lemma find_page_in (pages : list FormPage) (p : FormPage) :
  In p pages ->
  exists p', find_page pages (fp_page_id p) = Some p' /\ fp_page_id p' = fp_page_id p.
Proof.
  unfold find_page. induction pages as [|q qs IH]; intros Hin; [destruct Hin|].
  simpl. destruct (String.eqb_spec (fp_page_id q) (fp_page_id p)) as [E|E].
  - exists q. split; [reflexivity|exact E].
  - destruct Hin as [->|Hin]; [congruence|]. exact (IH Hin).
Qed.

(** After [register_template], every page of the template is served under
    the template's id, and the routes of other template ids are unchanged.
    *)
Theorem registered_pages_are_served (srv : FormServer) (t : FormTemplate)
    (p : FormPage) (session : option string) :
  In p (ft_pages t) ->
  (exists shown,
     show_page (register_template srv t) (ft_template_id t) (fp_page_id p) session
     = HTMLResponse {| html_template := t; html_page := shown;
                       html_session := session; html_errors := ∅ |} /\
     fp_page_id shown = fp_page_id p) /\
  (forall template_id page_id session', template_id <> ft_template_id t ->
   show_page (register_template srv t) template_id page_id session'
   = show_page srv template_id page_id session').
Proof.
  intros Hin. split.
  - destruct (find_page_in (ft_pages t) p Hin) as (shown & Hs & Hid).
    exists shown. split; [|exact Hid].
    unfold show_page, register_template. cbn [templates].
    rewrite lookup_insert_eq, Hs. reflexivity.
  - intros template_id page_id session' Hne.
    unfold show_page, register_template. cbn [templates].
    rewrite lookup_insert_ne by congruence. reflexivity.
Qed.

Lemma registered_pages_are_served_witness :
  exists shown,
    show_page (register_template {| templates := ∅; session_data := ∅ |} two_page_template)
      (ft_template_id two_page_template)
      (fp_page_id (mk_page "B" [mk_field "email" "email" "Email" EMAIL true None])) (Some "s")
    = HTMLResponse {| html_template := two_page_template; html_page := shown;
                      html_session := Some "s"; html_errors := ∅ |} /\
    fp_page_id shown = fp_page_id (mk_page "B" [mk_field "email" "email" "Email" EMAIL true None]).
Proof.
  assert (Hin : In (mk_page "B" [mk_field "email" "email" "Email" EMAIL true None])
                   (ft_pages two_page_template)) by (simpl; auto).
  exact (proj1 (registered_pages_are_served {| templates := ∅; session_data := ∅ |}
                  two_page_template _ (Some "s") Hin)).
Defined.

(** [start_application] on a template with pages creates the session
    [template_id_timestamp] with no data and redirects to the first page,
    which is then served for that session. *)
Theorem start_application_opens_first_page (srv : FormServer)
    (template_id timestamp : string) (t : FormTemplate)
    (first_page : FormPage) (rest : list FormPage) :
  templates srv !! template_id = Some t ->
  ft_pages t = first_page :: rest ->
  let session_id := template_id ++ "_" ++ timestamp in
  let (srv', resp) := start_application srv template_id timestamp in
  resp = RedirectResponse ("/apply/" ++ template_id ++ "/page/" ++
                           fp_page_id first_page ++ "?session=" ++ session_id) 302 /\
  session_data srv' !! session_id = Some ∅ /\
  show_page srv' template_id (fp_page_id first_page) (Some session_id)
  = HTMLResponse {| html_template := t; html_page := first_page;
                    html_session := Some session_id; html_errors := ∅ |}.
Proof.
  intros Ht Hp session_id. unfold start_application. rewrite Ht, Hp.
  split; [reflexivity|split].
  - cbn [session_data]. apply lookup_insert_eq.
  - unfold show_page. cbn [templates]. rewrite Ht, Hp.
    unfold find_page. simpl. rewrite String.eqb_refl. reflexivity.
Qed.

Lemma start_application_opens_first_page_witness :
  let (srv', resp) := start_application two_page_server "T" "1700000000.5" in
  resp = RedirectResponse "/apply/T/page/A?session=T_1700000000.5" 302 /\
  session_data srv' !! "T_1700000000.5" = Some ∅ /\
  show_page srv' "T" "A" (Some "T_1700000000.5")
  = HTMLResponse {| html_template := two_page_template;
                    html_page := mk_page "A" [mk_field "name" "name" "Name" TEXT true None];
                    html_session := Some "T_1700000000.5"; html_errors := ∅ |}.
Proof.
  exact (start_application_opens_first_page two_page_server "T" "1700000000.5"
           two_page_template (mk_page "A" [mk_field "name" "name" "Name" TEXT true None])
           [mk_page "B" [mk_field "email" "email" "Email" EMAIL true None]]
           eq_refl eq_refl).
Defined.

(* ------------------------------------------------------------------ *)
(** ** The test runner's suite, and the template document *)

(** The summary of [run_test_suite] counts every result: [total_tests] is
    the number of results, [successful_tests] lies between 0 and it,
    [failed_tests] is the rest, and [success_rate] lies between 0 and 100.
    *)
Theorem aggregate_bounds (results : list (list (string * json))) (summary : SuiteSummary) :
  aggregate results = Returned summary ->
  ss_total_tests summary = Z.of_nat (length results) /\
  0 <= ss_successful_tests summary <= ss_total_tests summary /\
  ss_failed_tests summary = ss_total_tests summary - ss_successful_tests summary /\
  0 <= ss_failed_tests summary /\
  (0 <= ss_success_rate summary <= 100)%Q.
Proof.
  unfold aggregate. intros H.
  pose proof (List.filter_length_le (fun r => json_truthy (get_default r "success" (JBool false)))
                results) as Hle.
  destruct (sum_metric "total_interactions" results) as [ti|]; [|discriminate]. cbn [pbind] in H.
  destruct (0 <? Z.of_nat (length results)) eqn:Hpos.
  - destruct (sum_metric "completion_percentage" results) as [c|]; [|discriminate].
    cbn [pbind] in H. injection H as <-. cbn.
    apply Z.ltb_lt in Hpos.
    split; [reflexivity|split; [lia|split; [reflexivity|split; [lia|]]]].
    assert (Hb : (0 < inject_Z (Z.of_nat (length results)))%Q)
      by (change 0%Q with (inject_Z 0); rewrite <- Zlt_Qlt; exact Hpos).
    assert (H0 : (0 <= inject_Z (Z.of_nat (length (List.filter
                   (fun r => json_truthy (get_default r "success" (JBool false))) results))))%Q)
      by ((change 0%Q with (inject_Z 0) || idtac); rewrite <- Zle_Qle; lia).
    assert (H1 : (inject_Z (Z.of_nat (length (List.filter
                   (fun r => json_truthy (get_default r "success" (JBool false))) results)))
                  <= inject_Z (Z.of_nat (length results)))%Q)
      by ((change 0%Q with (inject_Z 0) || idtac); rewrite <- Zle_Qle; lia).
    split.
    + apply Qmult_le_0_compat; [|discriminate].
      apply Qle_shift_div_l; [exact Hb|]. rewrite Qmult_0_l. exact H0.
    + apply Qle_trans with (1 * 100)%Q; [|apply Qle_refl].
      apply Qmult_le_compat_r; [|discriminate].
      apply Qle_shift_div_r; [exact Hb|]. rewrite Qmult_1_l. exact H1.
  - injection H as <-. cbn. apply Z.ltb_ge in Hpos.
    split; [reflexivity|split; [lia|split; [reflexivity|split; [lia|]]]].
    split; discriminate.
Qed.

Lemma aggregate_bounds_witness :
  exists summary,
    aggregate [[("success", JBool true)]; [("success", JBool false)]] = Returned summary /\
    ss_successful_tests summary = 1 /\
    (0 <= ss_success_rate summary <= 100)%Q.
Proof.
  refine (ex_intro _ _ (conj eq_refl (conj eq_refl
    (proj2 (proj2 (proj2 (proj2 (aggregate_bounds
       [[("success", JBool true)]; [("success", JBool false)]] _ eq_refl)))))))).
Defined.

Lemma register_all_registers runner srv ts :
  server runner = Some srv ->
  exists runner' srv',
    register_all runner ts = Returned runner' /\ server runner' = Some srv' /\
    (forall k, is_Some (templates srv !! k) -> is_Some (templates srv' !! k)) /\
    Forall (fun t => is_Some (templates srv' !! ft_template_id t)) ts.
Proof.
  revert runner srv. induction ts as [|t ts IH]; intros runner srv Hs.
  - exists runner, srv. repeat split; auto.
  - cbn [register_all]. unfold runner_register_template. rewrite Hs. cbn [pbind].
    destruct (IH {| server_port := server_port runner;
                    server := Some (register_template srv t) |}
                 (register_template srv t) eq_refl)
      as (runner' & srv' & E & Hs' & Hmono & Hall).
    exists runner', srv'. split; [exact E|split; [exact Hs'|split]].
    + intros k Hk. apply Hmono. unfold register_template. cbn [templates].
      destruct (decide (k = ft_template_id t)) as [->|Hne].
      * rewrite lookup_insert_eq. eauto.
      * rewrite lookup_insert_ne by congruence. exact Hk.
    + constructor; [|exact Hall].
      apply Hmono. unfold register_template. cbn [templates].
      rewrite lookup_insert_eq. eauto.
Qed.

Lemma run_test_registered collect_results runner srv template_id outcome ts :
  server runner = Some srv -> is_Some (templates srv !! template_id) ->
  run_test collect_results runner template_id outcome ts
  = Returned [("test_id", JStr (template_id ++ "_" ++ ts));
              ("template_id", JStr template_id);
              ("success", JBool false);
              ("error", JStr (match outcome with
                              | AgentRaises _ msg => msg
                              | AgentReturns _ =>
                                  "'FormServer' object has no attribute 'trackers'"
                              end));
              ("error_type", JStr (match outcome with
                                   | AgentRaises ty _ => ty
                                   | AgentReturns _ => "AttributeError"
                                   end))].
Proof.
  intros Hs [t Ht]. unfold run_test. rewrite Hs, Ht.
  destruct outcome; reflexivity.
Qed.

Lemma run_all_errors collect_results agent timestamp runner srv ts i :
  server runner = Some srv ->
  Forall (fun t => is_Some (templates srv !! ft_template_id t)) ts ->
  exists rs,
    run_all collect_results agent timestamp runner ts i = Returned rs /\
    length rs = length ts /\
    forall j r, rs !! j = Some r ->
      obj_get r "success" = Some (JBool false) /\
      obj_get r "metrics" = None /\
      obj_get r "error_type"
        = Some (JStr (match agent (i + j)%nat with
                      | AgentRaises ty _ => ty
                      | AgentReturns _ => "AttributeError"
                      end)).
Proof.
  revert i. induction ts as [|t ts IH]; intros i Hs Hall.
  - exists []. split; [reflexivity|split; [reflexivity|]]. intros j r Hj. discriminate.
  - inversion Hall as [|? ? Ht Hall']; subst.
    cbn [run_all]. rewrite (run_test_registered collect_results runner srv _ _ _ Hs Ht).
    cbn [pbind].
    destruct (IH (S i) Hs Hall') as (rs & E & Hlen & Hrs).
    rewrite E. cbn [pbind].
    eexists. split; [reflexivity|split; [simpl; congruence|]].
    intros [|j] r Hj.
    + injection Hj as <-. rewrite Nat.add_0_r. split; [reflexivity|split; reflexivity].
    + simpl in Hj. rewrite Nat.add_succ_r. exact (Hrs j r Hj).
Qed.

Lemma sum_metric_no_metrics key rs :
  (forall j r, rs !! j = Some r -> obj_get r "metrics" = None) ->
  sum_metric key rs = Returned 0.
Proof.
  induction rs as [|r rs IH]; intros H; [reflexivity|].
  cbn [sum_metric]. unfold metric, get_default.
  rewrite (H 0%nat r eq_refl). cbn [pbind json_num obj_get].
  rewrite IH by (intros j r' Hj; exact (H (S j) r' Hj)). reflexivity.
Qed.

Lemma filter_failed rs :
  (forall j r, rs !! j = Some r -> obj_get r "success" = Some (JBool false)) ->
  List.filter (fun r => json_truthy (get_default r "success" (JBool false))) rs = [].
Proof.
  induction rs as [|r rs IH]; intros H; [reflexivity|].
  cbn [List.filter]. unfold get_default at 1. rewrite (H 0%nat r eq_refl).
  apply IH. intros j r' Hj. exact (H (S j) r' Hj).
Qed.

(** Since [FormServer] has no [trackers] attribute, every test of a
    started runner ends in the except branch: each result has success
    false and the agent's exception type or AttributeError, and the
    summary reports no success, a rate of 0, no interaction and an average
    completion of 0. *)
Theorem suite_never_reports_success
    (collect_results : string -> FormTemplate -> json ->
                       gmap string InteractionTracker -> py_outcome (list (string * json)))
    (agent : nat -> AgentOutcome) (timestamp : nat -> string)
    (runner : TestRunner) (srv : FormServer) (ts : list FormTemplate) :
  server runner = Some srv ->
  exists runner' summary results,
    run_test_suite collect_results agent timestamp runner ts
      = Returned (runner', (summary, results)) /\
    length results = length ts /\
    (forall j r, results !! j = Some r ->
       obj_get r "success" = Some (JBool false) /\
       obj_get r "error_type"
         = Some (JStr (match agent j with
                       | AgentRaises ty _ => ty
                       | AgentReturns _ => "AttributeError"
                       end))) /\
    ss_total_tests summary = Z.of_nat (length ts) /\
    ss_successful_tests summary = 0 /\
    ss_failed_tests summary = ss_total_tests summary /\
    (ss_success_rate summary == 0)%Q /\
    ss_total_interactions summary = 0 /\
    (ss_average_completion_percentage summary == 0)%Q.
Proof.
  intros Hs.
  destruct (register_all_registers runner srv ts Hs)
    as (runner' & srv' & Er & Hs' & _ & Hall).
  destruct (run_all_errors collect_results agent timestamp runner' srv' ts 0 Hs' Hall)
    as (rs & Ea & Hlen & Hrs).
  unfold run_test_suite. rewrite Er. cbn [pbind]. rewrite Ea. cbn [pbind].
  unfold aggregate.
  rewrite filter_failed by (intros j r Hj; exact (proj1 (Hrs j r Hj))).
  rewrite !sum_metric_no_metrics by (intros j r Hj; exact (proj1 (proj2 (Hrs j r Hj)))).
  assert (Hr : forall j r, rs !! j = Some r ->
            obj_get r "success" = Some (JBool false) /\
            obj_get r "error_type"
              = Some (JStr (match agent j with
                            | AgentRaises ty _ => ty
                            | AgentReturns _ => "AttributeError"
                            end)))
    by (intros j r Hj; destruct (Hrs j r Hj) as (H1 & _ & H3); split; [exact H1|exact H3]).
  destruct (0 <? Z.of_nat (length rs)); cbn [pbind];
    (eexists _, _, rs; split; [reflexivity|]);
    (split; [exact Hlen|split; [exact Hr|]]); cbn; rewrite Hlen;
    repeat split; try lia; unfold Qeq; simpl; lia.
Qed.

Lemma suite_never_reports_success_witness :
  exists runner' summary results,
    run_test_suite (fun _ _ _ _ => Returned []) (fun _ => AgentReturns (JBool true))
      (fun _ => "1700000000.5")
      {| server_port := 8001; server := Some {| templates := ∅; session_data := ∅ |} |}
      [two_page_template; two_required_template]
      = Returned (runner', (summary, results)) /\
    ss_successful_tests summary = 0 /\ ss_failed_tests summary = 2.
Proof.
  destruct (suite_never_reports_success (fun _ _ _ _ => Returned [])
              (fun _ => AgentReturns (JBool true)) (fun _ => "1700000000.5")
              {| server_port := 8001; server := Some {| templates := ∅; session_data := ∅ |} |}
              {| templates := ∅; session_data := ∅ |}
              [two_page_template; two_required_template] eq_refl)
    as (runner' & summary & results & E & _ & _ & Ht & Hs & Hf & _).
  exists runner', summary, results. split; [exact E|split; [exact Hs|]].
  rewrite Hf, Ht. reflexivity.
Defined.

(** [start_application] on a registered template with no page fails with
    an IndexError (a 500 response), after the new session has already been
    created. *)
Theorem start_application_without_pages (srv : FormServer)
    (template_id timestamp : string) (t : FormTemplate) :
  templates srv !! template_id = Some t ->
  ft_pages t = [] ->
  let (srv', resp) := start_application srv template_id timestamp in
  resp = HTTPException 500 "IndexError" /\
  session_data srv' !! (template_id ++ "_" ++ timestamp) = Some ∅ /\
  templates srv' = templates srv.
Proof.
  intros Ht Hp. unfold start_application. rewrite Ht, Hp.
  split; [reflexivity|split; [apply lookup_insert_eq|reflexivity]].
Qed.

Lemma start_application_without_pages_witness :
  let (srv', resp) := start_application
                        (register_template {| templates := ∅; session_data := ∅ |}
                           (mk_template "E" [])) "E" "1700000000.5" in
  resp = HTTPException 500 "IndexError" /\
  session_data srv' !! ("E" ++ "_" ++ "1700000000.5") = Some ∅ /\
  templates srv' = templates (register_template {| templates := ∅; session_data := ∅ |}
                                (mk_template "E" [])).
Proof.
  exact (start_application_without_pages
           (register_template {| templates := ∅; session_data := ∅ |} (mk_template "E" []))
           "E" "1700000000.5" (mk_template "E" []) eq_refl eq_refl).
Defined.

(** [FieldType(s)] returns the member whose value is [s], and for any
    other string raises the [ValueError] of the [Enum] lookup, built from
    [s] and ["FieldType"]. *)
Theorem FieldType_of_inverts_value (s : string) (t : FieldType) :
  (FieldType_of s = Ok t <-> FieldType_value t = s) /\
  ((exists t', FieldType_of s = Ok t') \/
   FieldType_of s = Err (ValueError s "FieldType")).
Proof.
  split.
  - split.
    + unfold FieldType_of. intros H.
      repeat match type of H with
      | context [String.eqb s ?c] =>
          destruct (String.eqb_spec s c) as [->|_]; [injection H as <-; reflexivity|]
      end.
      discriminate H.
    + intros <-. apply FieldType_of_value.
  - unfold FieldType_of.
    repeat match goal with
    | |- context [String.eqb s ?c] => destruct (String.eqb s c); [left; eexists; reflexivity|]
    end.
    right. reflexivity.
Qed.

(** [FormTemplate.from_dict] fills an optional key missing from a template,
    page, field or option document with the dataclass default: deleting
    such a key from [T.to_dict()], at any level and in any page, field or
    option, decodes to [T] with only that attribute reset to its default. *)
Theorem from_dict_defaults (T : FormTemplate) (k : string) (i j l : nat) :
  (In k template_optional_keys ->
   from_dict (del_key k (to_dict T)) = Ok (template_default k T)) /\
  (In k page_optional_keys ->
   from_dict (page_edit i (json_del k) (to_dict T))
   = Ok (alter_page i (page_default k) T)) /\
  (In k field_optional_keys ->
   from_dict (page_edit i (field_edit j (json_del k)) (to_dict T))
   = Ok (alter_page i (alter_field j (field_default k)) T)) /\
  (In k option_optional_keys ->
   from_dict (page_edit i (field_edit j (option_edit l (json_del k))) (to_dict T))
   = Ok (alter_page i (alter_field j (alter_option l (option_default k))) T)).
Proof.
  split; [|split; [|split]]; intros Hk.
  - apply template_del_ok, Hk.
  - apply template_page_ok. intros p. apply page_del_ok, Hk.
  - apply template_page_ok. intros p. apply page_field_ok. intros f.
    apply field_del_ok, Hk.
  - apply template_page_ok. intros p. apply page_field_ok. intros f.
    apply field_option_ok. intros o. apply option_del_ok, Hk.
Qed.

Lemma from_dict_defaults_witness :
  In "required" field_optional_keys /\
  from_dict (page_edit 0 (field_edit 0 (json_del "required")) (to_dict two_page_template))
  = Ok (mk_template "T"
          [mk_page "A" [mk_field "name" "name" "Name" TEXT false None];
           mk_page "B" [mk_field "email" "email" "Email" EMAIL true None]]).
Proof.
  split; [simpl; tauto|].
  apply (proj1 (proj2 (proj2 (from_dict_defaults two_page_template "required" 0 0 0)))).
  simpl; tauto.
Defined.
